(** * Transaction reconciliation of [main.py]

    A shallow embedding of the reconciliation code of [src/python/main.py]
    (fee calculation, input resolution, output classification, report
    writer and the [main] pipeline that sequences them) together with the
    properties of the specification that concern it.

    Python values are modelled as the code uses them: the node's JSON
    numbers are values of the type [num] in which the client delivers them
    ([float] or [decimal.Decimal]), local counters
    initialised with the literal [0] are Python integers, exceptions are
    results [Raise e], list subscripts follow Python's indexing rule and a
    missing dictionary key raises [KeyError]. *)

From Stdlib Require Import ZArith List String Ascii Bool Lia DecimalString.
From Stdlib Require Import Permutation.
Import ListNotations.
Local Open Scope Z_scope.
Local Open Scope string_scope.

(** ** Exceptions and results *)

(** Exceptions that the modelled code can raise.  [JSONRPCException]
    carries the printed form of its [error] attribute; every other
    exception is an instance of [Exception] with a class name and the text
    that [str(e)] yields. *)
Inductive exn : Type :=
| JSONRPCException (error : string)
| PyException (cls : string) (msg : string).

Definition KeyError (key : string) : exn :=
  PyException "KeyError" ("'" ++ key ++ "'").
Definition IndexError : exn :=
  PyException "IndexError" "list index out of range".
Definition AttributeError (msg : string) : exn :=
  PyException "AttributeError" msg.
Definition PermissionError (path : string) : exn :=
  PyException "PermissionError"
    ("[Errno 13] Permission denied: '" ++ path ++ "'").

Definition exn_class (e : exn) : string :=
  match e with
  | JSONRPCException _ => "JSONRPCException"
  | PyException cls _ => cls
  end.

Inductive result (A : Type) : Type :=
| Ok (a : A)
| Raise (e : exn).
Arguments Ok {A} a.
Arguments Raise {A} e.

Definition rbind {A B} (r : result A) (k : A -> result B) : result B :=
  match r with
  | Ok a => k a
  | Raise e => Raise e
  end.

Declare Scope result_scope.
Delimit Scope result_scope with result.
Notation "x <- c ;; k" := (rbind c (fun x => k))
  (at level 61, c at next level, right associativity) : result_scope.
Notation "' pat <- c ;; k" := (rbind c (fun x => match x with pat => k end))
  (at level 61, pat pattern, c at next level, right associativity) : result_scope.

(** A [for] loop that carries the loop's local variables [s] and stops at
    the first exception. *)
Fixpoint for_each {A S} (l : list A) (s : S) (body : S -> A -> result S)
  : result S :=
  match l with
  | [] => Ok s
  | a :: l' => rbind (body s a) (fun s' => for_each l' s' body)
  end.

(** [l[i]] for a Python list and a Python integer: a negative index counts
    from the end, and an index outside the list raises [IndexError]. *)
Definition py_getitem {A} (l : list A) (i : Z) : result A :=
  let n := Z.of_nat (List.length l) in
  let j := (if i <? 0 then i + n else i)%Z in
  if ((0 <=? j) && (j <? n))%Z
  then match nth_error l (Z.to_nat j) with
       | Some a => Ok a
       | None => Raise IndexError
       end
  else Raise IndexError.

(** [d[key]] for a dictionary in which [key] may be absent. *)
Definition py_getkey {A} (key : string) (field : option A) : result A :=
  match field with
  | Some a => Ok a
  | None => Raise (KeyError key)
  end.

(** [x in l] for a list of strings. *)
Definition py_in (x : string) (l : list string) : bool :=
  existsb (String.eqb x) l.

(** [str(i)] for a Python integer. *)
Definition str_int (i : Z) : string :=
  NilZero.string_of_int (Z.to_int i).

(** ** Numbers *)

(** The operations the code applies to the numbers that the RPC layer
    delivers ([value] fields, balances).  The code calls [is_integer] and
    [int] on them, adds and subtracts them, mixes them with the integer
    literal [0] and formats them with an f-string.

    The type of these numbers is the client's choice: [float] has the
    method [is_integer], [decimal.Decimal] has not.  [num_has_is_integer]
    says which, [num_type_name] is the type's name as an [AttributeError]
    prints it, and [num_is_integer] is the method's result where it
    exists. *)
Class PyFloat (num : Type) : Type := {
  num_add : num -> num -> num;
  num_sub : num -> num -> num;
  num_of_int : Z -> num;
  num_has_is_integer : bool;
  num_type_name : string;
  num_is_integer : num -> bool;
  num_int : num -> Z;
  num_str : num -> string
}.

Section Reconciliation.

Context {num : Type} {PF : PyFloat num}.

(** A Python number held in a local variable: the integer literal [0] (or
    a sum of integers), or a number of the node. *)
Inductive pyval : Type :=
| PInt (i : Z)
| PNum (x : num).

Definition py_add (a b : pyval) : pyval :=
  match a, b with
  | PInt i, PInt j => PInt (i + j)
  | PInt i, PNum y => PNum (num_add (num_of_int i) y)
  | PNum x, PInt j => PNum (num_add x (num_of_int j))
  | PNum x, PNum y => PNum (num_add x y)
  end.

Definition py_sub (a b : pyval) : pyval :=
  match a, b with
  | PInt i, PInt j => PInt (i - j)
  | PInt i, PNum y => PNum (num_sub (num_of_int i) y)
  | PNum x, PInt j => PNum (num_sub x (num_of_int j))
  | PNum x, PNum y => PNum (num_sub x y)
  end.

(** The builtin [sum]: a left fold of [+] that starts from the integer 0. *)
Definition py_sum (l : list pyval) : pyval :=
  fold_left py_add l (PInt 0).

(** [format(v, '')], what an f-string field [{v}] produces. *)
Definition py_str (v : pyval) : string :=
  match v with
  | PInt i => str_int i
  | PNum x => num_str x
  end.

(** ** Decoded transactions *)

Record ScriptPubKey : Type := {
  spk_addresses : option (list string)   (* the key 'addresses', when present *)
}.

Record Vout : Type := {
  vout_value : num;                      (* 'value' *)
  vout_scriptPubKey : ScriptPubKey       (* 'scriptPubKey' *)
}.

Record Vin : Type := {
  vin_txid : string;                     (* 'txid' *)
  vin_vout : Z                           (* 'vout' *)
}.

Record DecodedTx : Type := {
  tx_vin : list Vin;                     (* 'vin' *)
  tx_vout : list Vout                    (* 'vout' *)
}.

(** The two methods of [client] that the reconciliation functions call. *)
Record Client : Type := {
  getrawtransaction : string -> result string;
  decoderawtransaction : string -> result DecodedTx
}.

Local Open Scope result_scope.

(** ** The reconciliation functions *)

Definition calculate_transaction_fee (client : Client) (decoded_tx : DecodedTx)
  : result pyval :=
  total_input <-
    for_each (tx_vin decoded_tx) (PInt 0) (fun total_input vin =>
      prev_tx <- getrawtransaction client (vin_txid vin) ;;
      prev_decoded <- decoderawtransaction client prev_tx ;;
      prev_output <- py_getitem (tx_vout prev_decoded) (vin_vout vin) ;;
      Ok (py_add total_input (PNum (vout_value prev_output)))) ;;
  let total_output :=
    py_sum (map (fun vout => PNum (vout_value vout)) (tx_vout decoded_tx)) in
  Ok (py_sub total_output total_input).

Definition extract_input_details (client : Client) (decoded_tx : DecodedTx)
  : result (string * num) :=
  first_vin <- py_getitem (tx_vin decoded_tx) 0 ;;
  prev_tx <- getrawtransaction client (vin_txid first_vin) ;;
  prev_decoded <- decoderawtransaction client prev_tx ;;
  prev_output <- py_getitem (tx_vout prev_decoded) (vin_vout first_vin) ;;
  addresses <- py_getkey "addresses"
                 (spk_addresses (vout_scriptPubKey prev_output)) ;;
  input_address <- py_getitem addresses 0 ;;
  let input_amount := vout_value prev_output in
  Ok (input_address, input_amount).

(** The body of the loop of [extract_output_details]; the loop's variables
    are [(change_address, change_amount, trader_amount)]. *)
Definition classify_vout (trader_address : string)
    (vars : string * pyval * pyval) (vout : Vout)
  : result (string * pyval * pyval) :=
  let '(change_address, change_amount, trader_amount) := vars in
  let script_pubkey := vout_scriptPubKey vout in
  match spk_addresses script_pubkey with
  | Some addresses =>
      if py_in trader_address addresses
      then Ok (change_address, change_amount, PNum (vout_value vout))
      else
        change_address' <- py_getitem addresses 0 ;;
        Ok (change_address', PNum (vout_value vout), trader_amount)
  | None => Ok vars
  end.

Definition extract_output_details (decoded_tx : DecodedTx)
    (trader_address : string) : result (string * pyval * pyval) :=
  let trader_amount := PInt 0 in
  let change_amount := PInt 0 in
  let change_address := "" in
  for_each (tx_vout decoded_tx)
    (change_address, change_amount, trader_amount)
    (classify_vout trader_address).

(** ** The world of a run *)

(** The RPC methods that [main] calls on the node.  Queries read the node's
    state; the other methods may change it, and leave it as it is when they
    raise.  Results that are only printed are kept in their printed form.
    The methods of the wallet endpoints take the wallet's name first. *)
Class NodeRPC (Node : Type) : Type := {
  rpc_getblockchaininfo : Node -> result string;
  rpc_listwallets : Node -> result (list string);
  rpc_loadwallet : string -> Node -> result Node;
  rpc_createwallet : string -> Node -> result Node;
  rpc_getnewaddress : string -> string -> Node -> result (string * Node);
  rpc_generatetoaddress : Z -> string -> Node -> result (list string * Node);
  rpc_getbalance : string -> Node -> result num;
  rpc_sendtoaddress : string -> string -> Z -> Node -> result (string * Node);
  rpc_getmempoolentry : string -> Node -> result string;
  rpc_getrawtransaction : string -> Node -> result string;
  rpc_decoderawtransaction : string -> Node -> result DecodedTx;
  rpc_getblock : string -> Node -> result Z   (* block_info['height'] *)
}.

Context {Node : Type} {RPC : NodeRPC Node}.

(** [int_is_integer]: whether the interpreter's [int] has the method
    [is_integer] (it has from Python 3.12 on).  [script_dir] is
    [os.path.dirname(__file__)]. *)
Variable int_is_integer : bool.
Variable script_dir : string.

Record World : Type := {
  node : Node;                 (* the daemon's state *)
  stdout : list string;        (* the lines printed so far *)
  out_txt : option string;     (* the content of out.txt, when it exists *)
  out_writable : bool          (* whether out.txt can be opened for writing *)
}.

Definition M (A : Type) : Type := World -> result A * World.

Definition ret {A} (a : A) : M A := fun w => (Ok a, w).

Definition bind {A B} (c : M A) (k : A -> M B) : M B :=
  fun w =>
    match c w with
    | (Ok a, w') => k a w'
    | (Raise e, w') => (Raise e, w')
    end.

Definition lift {A} (r : result A) : M A := fun w => (r, w).

Definition query {A} (q : Node -> result A) : M A :=
  fun w => (q (node w), w).

Definition set_node (w : World) (n : Node) : World :=
  {| node := n; stdout := stdout w; out_txt := out_txt w;
     out_writable := out_writable w |}.

Definition call {A} (c : Node -> result (A * Node)) : M A :=
  fun w =>
    match c (node w) with
    | Ok (a, n') => (Ok a, set_node w n')
    | Raise e => (Raise e, w)
    end.

Definition call_ (c : Node -> result Node) : M unit :=
  call (fun n => rbind (c n) (fun n' => Ok (tt, n'))).

Definition print (line : string) : M unit :=
  fun w =>
    (Ok tt, {| node := node w; stdout := (stdout w ++ [line])%list;
               out_txt := out_txt w; out_writable := out_writable w |}).

(** [os.makedirs(path, exist_ok=True)] on the parent of the script's
    directory: the directory exists, and nothing happens. *)
Definition makedirs_exist_ok (path : string) : M unit :=
  fun w => (Ok tt, w).

(** [open(output_path, 'w')]: creates or truncates the file. *)
Definition open_w (output_path : string) : M unit :=
  fun w =>
    if out_writable w
    then (Ok tt, {| node := node w; stdout := stdout w; out_txt := Some "";
                    out_writable := out_writable w |})
    else (Raise (PermissionError output_path), w).

(** [f.write(s)] on the file opened by [open_w]. *)
Definition f_write (s : string) : M unit :=
  fun w =>
    (Ok tt, {| node := node w; stdout := stdout w;
               out_txt := Some (match out_txt w with
                                | Some content => content ++ s
                                | None => s
                                end);
               out_writable := out_writable w |}).

Declare Scope io_scope.
Delimit Scope io_scope with io.
Notation "x <- c ;; k" := (bind c (fun x => k))
  (at level 61, c at next level, right associativity) : io_scope.
Notation "' pat <- c ;; k" := (bind c (fun x => match x with pat => k end))
  (at level 61, pat pattern, c at next level, right associativity) : io_scope.
Notation "c ;; k" := (bind c (fun _ => k))
  (at level 61, right associativity) : io_scope.

Local Open Scope io_scope.

Fixpoint for_m {A} (l : list A) (body : A -> M unit) : M unit :=
  match l with
  | [] => ret tt
  | a :: l' => body a ;; for_m l' body
  end.

(** ** The report writer *)

Definition newline : string := String "010"%char EmptyString.

(** [os.path.join(a, b)] for a relative [b]. *)
Definition path_join (a b : string) : string :=
  if (a =? "")%string then b
  else if (substring (String.length a - 1) 1 a =? "/")%string then a ++ b
  else a ++ "/" ++ b.

(** [v.is_integer()]: an [AttributeError] where the value's type has no
    such method. *)
Definition is_integer (v : pyval) : result bool :=
  match v with
  | PNum x =>
      if num_has_is_integer then Ok (num_is_integer x)
      else Raise (AttributeError
                    ("'" ++ num_type_name
                     ++ "' object has no attribute 'is_integer'"))
  | PInt _ =>
      if int_is_integer then Ok true
      else Raise (AttributeError "'int' object has no attribute 'is_integer'")
  end.

(** [int(v)]. *)
Definition py_int (v : pyval) : Z :=
  match v with
  | PNum x => num_int x
  | PInt i => i
  end.

Definition write_output_file
    (txid input_address : string) (input_amount : pyval)
    (trader_address : string) (trader_amount : pyval)
    (change_address : string) (change_amount fee : pyval)
    (block_height : Z) (block_hash : string) : M unit :=
  let output_dir := path_join script_dir ".." in
  makedirs_exist_ok output_dir ;;
  let output_path := path_join output_dir "out.txt" in
  open_w output_path ;;
  f_write (txid ++ newline) ;;
  f_write (input_address ++ newline) ;;
  whole <- lift (is_integer input_amount) ;;
  (if whole : bool
   then f_write (str_int (py_int input_amount) ++ newline)
   else f_write (py_str input_amount ++ newline)) ;;
  f_write (trader_address ++ newline) ;;
  whole <- lift (is_integer trader_amount) ;;
  (if whole : bool
   then f_write (str_int (py_int trader_amount) ++ newline)
   else f_write (py_str trader_amount ++ newline)) ;;
  f_write (change_address ++ newline) ;;
  f_write (py_str change_amount ++ newline) ;;
  f_write (py_str fee ++ newline) ;;
  f_write (str_int block_height ++ newline) ;;
  f_write (block_hash ++ newline) ;;
  print ("Output written to: " ++ output_path).

(** ** The pipeline *)

(** The ten local variables of [main] that it passes to
    [write_output_file], in the order of the call. *)
Record Fields : Type := {
  f_txid : string;
  f_input_address : string;
  f_input_amount : pyval;
  f_trader_receive_address : string;
  f_trader_amount : pyval;
  f_change_address : string;
  f_change_amount : pyval;
  f_fee : pyval;
  f_block_height : Z;
  f_confirm_block_hash : string
}.

(** The [client] object as the reconciliation functions see it: its two
    methods query the node in its current state. *)
Definition client_of (n : Node) : Client :=
  {| getrawtransaction := fun txid => rpc_getrawtransaction txid n;
     decoderawtransaction := fun raw => rpc_decoderawtransaction raw n |}.

(** The statements of the [try] block of [main] that come before the call
    of [write_output_file] (lines 10 to 89). *)
Definition main_derive : M Fields :=
  blockchain_info <- query rpc_getblockchaininfo ;;
  print ("Blockchain Info: " ++ blockchain_info) ;;
  let wallets := ["Miner"; "Trader"] in
  for_m wallets (fun wallet =>
    loaded <- query rpc_listwallets ;;
    if py_in wallet loaded
    then call_ (rpc_loadwallet wallet) ;;
         print ("Loaded existing wallet: " ++ wallet)
    else call_ (rpc_createwallet wallet) ;;
         print ("Created new wallet: " ++ wallet)) ;;
  mining_reward_address <- call (rpc_getnewaddress "Miner" "Mining Reward") ;;
  print ("Mining Reward Address: " ++ mining_reward_address) ;;
  let block_count := 101%Z in
  mined_blocks <- call (rpc_generatetoaddress block_count mining_reward_address) ;;
  print ("Mined " ++ str_int block_count ++ " blocks to address: "
         ++ mining_reward_address) ;;
  miner_balance <- query (rpc_getbalance "Miner") ;;
  print ("Miner Balance: " ++ num_str miner_balance ++ " BTC") ;;
  trader_receive_address <- call (rpc_getnewaddress "Trader" "Received") ;;
  print ("Trader Receive Address: " ++ trader_receive_address) ;;
  let send_amount := 20%Z in
  txid <- call (rpc_sendtoaddress "Miner" trader_receive_address send_amount) ;;
  print ("Sent " ++ str_int send_amount ++ " BTC to Trader. TXID: " ++ txid) ;;
  mempool_entry <- query (rpc_getmempoolentry txid) ;;
  print ("Mempool Entry: " ++ mempool_entry) ;;
  blocks <- call (rpc_generatetoaddress 1 mining_reward_address) ;;
  confirm_block_hash <- lift (py_getitem blocks 0) ;;
  print ("Transaction confirmed in block: " ++ confirm_block_hash) ;;
  raw_tx <- query (rpc_getrawtransaction txid) ;;
  decoded_tx <- query (rpc_decoderawtransaction raw_tx) ;;
  block_height <- query (rpc_getblock confirm_block_hash) ;;
  fee <- query (fun n => calculate_transaction_fee (client_of n) decoded_tx) ;;
  ' (input_address, input_amount) <-
    query (fun n => extract_input_details (client_of n) decoded_tx) ;;
  ' (change_address, change_amount, trader_amount) <-
    lift (extract_output_details decoded_tx trader_receive_address) ;;
  ret {| f_txid := txid;
         f_input_address := input_address;
         f_input_amount := PNum input_amount;
         f_trader_receive_address := trader_receive_address;
         f_trader_amount := trader_amount;
         f_change_address := change_address;
         f_change_amount := change_amount;
         f_fee := fee;
         f_block_height := block_height;
         f_confirm_block_hash := confirm_block_hash |}.

(** The whole [try] block: the derivation, then the call of
    [write_output_file] with the ten values. *)
Definition main_try : M unit :=
  r <- main_derive ;;
  write_output_file
    (f_txid r) (f_input_address r) (f_input_amount r)
    (f_trader_receive_address r) (f_trader_amount r)
    (f_change_address r) (f_change_amount r)
    (f_fee r) (f_block_height r) (f_confirm_block_hash r).

(** What the two [except] clauses print for an exception. *)
Definition diagnostic (e : exn) : string :=
  match e with
  | JSONRPCException error => "JSON-RPC Error: " ++ error
  | PyException _ msg => "Error occurred: " ++ msg
  end.

Definition main : M unit :=
  fun w =>
    match main_try w with
    | (Ok _, w') => (Ok tt, w')
    | (Raise e, w') => print (diagnostic e) w'
    end.

End Reconciliation.

(** ** Concrete number types and in-memory nodes

    [btc] stands for a client that delivers [float]: amounts as exact
    multiples of 10^-8 (the node's smallest unit) that have [is_integer]
    and are printed as [str] prints a float of that value, in positional
    notation with at least one fractional digit from 0.0001 on and in
    exponent form below.  [dec], further down, stands for a client that
    delivers [decimal.Decimal]. *)

Record btc : Type := Sat { sats : Z }.

Definition coin : Z := 100000000.

Definition digit (d : Z) : string :=
  String (ascii_of_nat (48 + Z.to_nat d)) EmptyString.

(** The fractional digits of [f / (10 * scale)], most significant first,
    without trailing zeros. *)
Fixpoint frac_digits (fuel : nat) (f scale : Z) : string :=
  match fuel with
  | O => ""
  | S fuel' =>
      let d := (f / scale)%Z in
      let r := (f mod scale)%Z in
      if (r =? 0)%Z then digit d
      else digit d ++ frac_digits fuel' r (scale / 10)%Z
  end.

(** The exponent form of [a] * 10^-8 for [0 < a < 10000]: the digits of
    [a] without trailing zeros, a point after the first, and a two-digit
    exponent. *)
Definition btc_str_exponent (a : Z) : string :=
  let ndigits := (if a <? 10 then 1 else if a <? 100 then 2
                  else if a <? 1000 then 3 else 4)%Z in
  let scale := (10 ^ (ndigits - 1))%Z in
  let r := (a mod scale)%Z in
  digit (a / scale)%Z
  ++ (if (r =? 0)%Z then "" else "." ++ frac_digits 3 r (scale / 10)%Z)
  ++ "e-0" ++ digit (9 - ndigits)%Z.

Definition btc_str (x : btc) : string :=
  let a := Z.abs (sats x) in
  (if (sats x <? 0)%Z then "-" else "")
  ++ (if ((0 <? a) && (a <? 10000))%Z then btc_str_exponent a
      else str_int (a / coin)%Z ++ "."
           ++ frac_digits 8 (a mod coin)%Z (coin / 10)%Z).

#[export] Instance PyFloat_btc : PyFloat btc := {|
  num_add := fun x y => Sat (sats x + sats y);
  num_sub := fun x y => Sat (sats x - sats y);
  num_of_int := fun i => Sat (i * coin);
  num_has_is_integer := true;
  num_type_name := "float";
  num_is_integer := fun x => (sats x mod coin =? 0)%Z;
  num_int := fun x => Z.quot (sats x) coin;
  num_str := btc_str
|}.

(** An in-memory node for the examples: its state is the list of the transactions it knows,
    by id.  The raw form of a known transaction is its id prefixed with
    [raw:], and fetching an unknown one raises the node's error. *)
Definition FakeNode : Type := list (string * @DecodedTx btc).

Fixpoint fake_lookup (key : string) (store : FakeNode)
  : option (@DecodedTx btc) :=
  match store with
  | [] => None
  | (k, tx) :: store' =>
      if (k =? key)%string then Some tx else fake_lookup key store'
  end.

Definition no_such_tx : exn :=
  JSONRPCException
    "{'code': -5, 'message': 'No such mempool or blockchain transaction.'}".

Definition fake_getrawtransaction (txid : string) (n : FakeNode)
  : result string :=
  match fake_lookup txid n with
  | Some _ => Ok ("raw:" ++ txid)
  | None => Raise no_such_tx
  end.

Definition fake_decoderawtransaction (raw : string) (n : FakeNode)
  : result (@DecodedTx btc) :=
  match fake_lookup (substring 4 (String.length raw - 4) raw) n with
  | Some tx => Ok tx
  | None => Raise (JSONRPCException "{'code': -22, 'message': 'TX decode failed'}")
  end.

#[export] Instance NodeRPC_fake : @NodeRPC btc FakeNode := {|
  rpc_getblockchaininfo := fun _ => Ok "{'chain': 'regtest'}";
  rpc_listwallets := fun _ => Ok ["Miner"];
  rpc_loadwallet := fun _ n => Ok n;
  rpc_createwallet := fun _ n => Ok n;
  rpc_getnewaddress := fun wallet _ n => Ok ("addr" ++ wallet, n);
  rpc_generatetoaddress := fun _ _ n => Ok (["blockhash"], n);
  rpc_getbalance := fun _ _ => Ok (Sat (50 * coin));
  rpc_sendtoaddress := fun _ _ _ n => Ok ("T2", n);
  rpc_getmempoolentry := fun _ _ => Ok "{'vsize': 141}";
  rpc_getrawtransaction := fake_getrawtransaction;
  rpc_decoderawtransaction := fake_decoderawtransaction;
  rpc_getblock := fun _ _ => Ok 102%Z
|}.

Definition addressed (value : Z) (addrs : list string) : @Vout btc :=
  {| vout_value := Sat value;
     vout_scriptPubKey := {| spk_addresses := Some addrs |} |}.

Definition unaddressed (value : Z) : @Vout btc :=
  {| vout_value := Sat value;
     vout_scriptPubKey := {| spk_addresses := None |} |}.

(** T1 pays 50 to the miner; T2 spends it: 20 to the trader, 29.5 back. *)
Definition tx1 : @DecodedTx btc :=
  {| tx_vin := []; tx_vout := [addressed (50 * coin) ["addrMiner"]] |}.

Definition tx2 : @DecodedTx btc :=
  {| tx_vin := [{| vin_txid := "T1"; vin_vout := 0 |}];
     tx_vout := [addressed (20 * coin) ["addrTrader"];
                 addressed 2950000000 ["addrChange"]] |}.

Definition full_node : FakeNode := [("T1", tx1); ("T2", tx2)].
Definition pruned_node : FakeNode := [("T2", tx2)].

Definition fresh_world (n : FakeNode) : @World FakeNode :=
  {| node := n; stdout := []; out_txt := None; out_writable := true |}.

(** T3 spends an output of T0 that has no address (a data carrier). *)
Definition tx0 : @DecodedTx btc :=
  {| tx_vin := []; tx_vout := [unaddressed (50 * coin)] |}.

Definition tx3 : @DecodedTx btc :=
  {| tx_vin := [{| vin_txid := "T0"; vin_vout := 0 |}];
     tx_vout := [addressed (20 * coin) ["addrTrader"]] |}.

Definition data_carrier_node : FakeNode := [("T0", tx0); ("T3", tx3)].

Definition tx_of_outputs (outs : list (@Vout btc)) : @DecodedTx btc :=
  {| tx_vin := [{| vin_txid := "T1"; vin_vout := 0 |}]; tx_vout := outs |}.

(** A transaction with a second input whose prior transaction no node
    here knows. *)
Definition tx_two_inputs : @DecodedTx btc :=
  {| tx_vin := [{| vin_txid := "T1"; vin_vout := 0 |};
                {| vin_txid := "T9"; vin_vout := 0 |}];
     tx_vout := [addressed (20 * coin) ["addrTrader"]] |}.

(** T2 with its two outputs in the other order. *)
Definition tx2_swapped : @DecodedTx btc :=
  {| tx_vin := [{| vin_txid := "T1"; vin_vout := 0 |}];
     tx_vout := [addressed 2950000000 ["addrChange"];
                 addressed (20 * coin) ["addrTrader"]] |}.

(** A node whose T2 pays nothing to the trader's address. *)
Definition unpaid_node : FakeNode :=
  [("T1", tx1);
   ("T2", {| tx_vin := [{| vin_txid := "T1"; vin_vout := 0 |}];
             tx_vout := [addressed 4950000000 ["addrOther"]] |})].

Definition locked_world (n : FakeNode) : @World FakeNode :=
  {| node := n; stdout := []; out_txt := Some "kept"; out_writable := false |}.

(** The ten values that a run derives against [full_node] and against
    [unpaid_node]. *)
Definition full_fields : @Fields btc :=
  {| f_txid := "T2";
     f_input_address := "addrMiner";
     f_input_amount := PNum (Sat (50 * coin));
     f_trader_receive_address := "addrTrader";
     f_trader_amount := PNum (Sat (20 * coin));
     f_change_address := "addrChange";
     f_change_amount := PNum (Sat 2950000000);
     f_fee := PNum (Sat (-50000000));
     f_block_height := 102;
     f_confirm_block_hash := "blockhash" |}.

Definition unpaid_fields : @Fields btc :=
  {| f_txid := "T2";
     f_input_address := "addrMiner";
     f_input_amount := PNum (Sat (50 * coin));
     f_trader_receive_address := "addrTrader";
     f_trader_amount := PInt 0;
     f_change_address := "addrOther";
     f_change_amount := PNum (Sat 4950000000);
     f_fee := PNum (Sat (-50000000));
     f_block_height := 102;
     f_confirm_block_hash := "blockhash" |}.

(** [dec] stands for a client that delivers [decimal.Decimal], as the
    proxy imported on line 1 does: amounts with eight fractional digits,
    exact addition and subtraction, no method [is_integer], and printed as
    [str] prints such a Decimal: all eight fractional digits, and the
    exponent form [dE-8] or [d.dE-7] below 0.000001 (zero included). *)
Record dec : Type := Dec { dec_sats : Z }.

Fixpoint fixed_digits (n : nat) (f scale : Z) : string :=
  match n with
  | O => ""
  | S n' => digit (f / scale)%Z ++ fixed_digits n' (f mod scale)%Z (scale / 10)%Z
  end.

Definition dec_str (x : dec) : string :=
  let a := Z.abs (dec_sats x) in
  (if (dec_sats x <? 0)%Z then "-" else "")
  ++ (if (a <? 10)%Z then digit a ++ "E-8"
      else if (a <? 100)%Z then digit (a / 10)%Z ++ "." ++ digit (a mod 10)%Z ++ "E-7"
      else str_int (a / coin)%Z ++ "."
           ++ fixed_digits 8 (a mod coin)%Z (coin / 10)%Z).

#[export] Instance PyFloat_dec : PyFloat dec := {|
  num_add := fun x y => Dec (dec_sats x + dec_sats y);
  num_sub := fun x y => Dec (dec_sats x - dec_sats y);
  num_of_int := fun i => Dec (i * coin);
  num_has_is_integer := false;
  num_type_name := "decimal.Decimal";
  num_is_integer := fun x => (dec_sats x mod coin =? 0)%Z;
  num_int := fun x => Z.quot (dec_sats x) coin;
  num_str := dec_str
|}.

(** The in-memory node over [dec]. *)
Definition DecNode : Type := list (string * @DecodedTx dec).

Fixpoint dec_lookup (key : string) (store : DecNode)
  : option (@DecodedTx dec) :=
  match store with
  | [] => None
  | (k, tx) :: store' =>
      if (k =? key)%string then Some tx else dec_lookup key store'
  end.

#[export] Instance NodeRPC_dec : @NodeRPC dec DecNode := {|
  rpc_getblockchaininfo := fun _ => Ok "{'chain': 'regtest'}";
  rpc_listwallets := fun _ => Ok ["Miner"];
  rpc_loadwallet := fun _ n => Ok n;
  rpc_createwallet := fun _ n => Ok n;
  rpc_getnewaddress := fun wallet _ n => Ok ("addr" ++ wallet, n);
  rpc_generatetoaddress := fun _ _ n => Ok (["blockhash"], n);
  rpc_getbalance := fun _ _ => Ok (Dec (50 * coin));
  rpc_sendtoaddress := fun _ _ _ n => Ok ("T2", n);
  rpc_getmempoolentry := fun _ _ => Ok "{'vsize': 141}";
  rpc_getrawtransaction := fun txid n =>
    match dec_lookup txid n with
    | Some _ => Ok ("raw:" ++ txid)
    | None => Raise no_such_tx
    end;
  rpc_decoderawtransaction := fun raw n =>
    match dec_lookup (substring 4 (String.length raw - 4) raw) n with
    | Some tx => Ok tx
    | None =>
        Raise (JSONRPCException "{'code': -22, 'message': 'TX decode failed'}")
    end;
  rpc_getblock := fun _ _ => Ok 102%Z
|}.

Definition dec_vout (value : Z) (addrs : list string) : @Vout dec :=
  {| vout_value := Dec value;
     vout_scriptPubKey := {| spk_addresses := Some addrs |} |}.

(** The two transactions of a run: T1 pays 50 to the miner; T2 spends it,
    20 to the trader and 29.9999859 back. *)
Definition dec_node : DecNode :=
  [("T1", {| tx_vin := []; tx_vout := [dec_vout (50 * coin) ["addrMiner"]] |});
   ("T2", {| tx_vin := [{| vin_txid := "T1"; vin_vout := 0 |}];
             tx_vout := [dec_vout (20 * coin) ["addrTrader"];
                         dec_vout 2999998590 ["addrMiner2"]] |})].

Definition dec_world : @World DecNode :=
  {| node := dec_node; stdout := []; out_txt := None; out_writable := true |}.

(** The ten values that a run derives against [dec_node]. *)
Definition dec_fields : @Fields dec :=
  {| f_txid := "T2";
     f_input_address := "addrMiner";
     f_input_amount := PNum (Dec (50 * coin));
     f_trader_receive_address := "addrTrader";
     f_trader_amount := PNum (Dec (20 * coin));
     f_change_address := "addrMiner2";
     f_change_amount := PNum (Dec 2999998590);
     f_fee := PNum (Dec (-1410));
     f_block_height := 102;
     f_confirm_block_hash := "blockhash" |}.

(** The fee as the specification words it:
    [sum(ri.amount for ri in resolved_inputs) - sum(o.value for o in outputs)]. *)
Definition spec_compute_fee {num : Type} {PF : PyFloat num}
    (resolved_amounts output_values : list num) : pyval :=
  py_sub (py_sum (map PNum resolved_amounts)) (py_sum (map PNum output_values)).

(** ** Vocabulary of the properties *)

Section Vocabulary.

Context {num : Type} {PF : PyFloat num}.

(** [resolves client vin o]: the accessor fetches and decodes the
    transaction that [vin] names, and [vin]'s index selects its output
    [o]. *)
Definition resolves (client : Client) (vin : Vin) (o : @Vout num) : Prop :=
  exists raw prev,
    getrawtransaction client (vin_txid vin) = Ok raw /\
    decoderawtransaction client raw = Ok prev /\
    py_getitem (tx_vout prev) (vin_vout vin) = Ok o.

(** An output that the classifier treats as change: it has the key
    [addresses] and the recipient is not in the list. *)
Definition change_like (recipient : string) (v : @Vout num) : bool :=
  match spk_addresses (vout_scriptPubKey v) with
  | Some addresses => negb (py_in recipient addresses)
  | None => false
  end.

(** A change-like output that has at least one address. *)
Definition change_like_nonempty (recipient : string) (v : @Vout num) : bool :=
  match spk_addresses (vout_scriptPubKey v) with
  | Some (a :: addresses) => negb (py_in recipient (a :: addresses))
  | _ => false
  end.

(** A text file made of the given lines, each terminated by a newline. *)
Fixpoint unlines (lines : list string) : string :=
  match lines with
  | [] => ""
  | line :: lines' => line ++ newline ++ unlines lines'
  end.

(** The ways in which the loop body of [calculate_transaction_fee] raises
    on an input: at the fetch, at the decoding, or at the subscript. *)
Definition resolution_fails (client : Client) (vin : Vin) (e : exn) : Prop :=
  getrawtransaction client (vin_txid vin) = Raise e \/
  (exists raw,
     getrawtransaction client (vin_txid vin) = Ok raw /\
     @decoderawtransaction num client raw = Raise e) \/
  (exists raw prev,
     getrawtransaction client (vin_txid vin) = Ok raw /\
     @decoderawtransaction num client raw = Ok prev /\
     py_getitem (tx_vout prev) (vin_vout vin) = Raise e).

(** An output that the classifier treats as paying the recipient. *)
Definition pays (recipient : string) (v : @Vout num) : bool :=
  match spk_addresses (vout_scriptPubKey v) with
  | Some addresses => py_in recipient addresses
  | None => false
  end.

(** The last element of a list that satisfies [p]. *)
Fixpoint last_where (p : @Vout num -> bool) (l : list (@Vout num))
  : option (@Vout num) :=
  match l with
  | [] => None
  | v :: l' =>
      match last_where p l' with
      | Some u => Some u
      | None => if p v then Some v else None
      end
  end.

Definition first_address (v : @Vout num) : string :=
  match spk_addresses (vout_scriptPubKey v) with
  | Some (a :: _) => a
  | _ => ""
  end.

(** The classification read as a function of the whole list: the last
    change-like output gives the change, the last output that pays the
    recipient gives the recipient amount, and what is absent keeps its
    initial value. *)
Definition classification (recipient : string) (outs : list (@Vout num))
  : string * pyval * pyval :=
  (match last_where (change_like recipient) outs with
   | Some v => first_address v
   | None => ""
   end,
   match last_where (change_like recipient) outs with
   | Some v => PNum (vout_value v)
   | None => PInt 0
   end,
   match last_where (pays recipient) outs with
   | Some v => PNum (vout_value v)
   | None => PInt 0
   end).

(** The world [w] with the content of out.txt replaced. *)
Definition with_out_txt {Node : Type} (w : @World Node)
    (content : option string) : @World Node :=
  {| node := node w; stdout := stdout w; out_txt := content;
     out_writable := out_writable w |}.

(** A computation that leaves out.txt as it is, whatever it returns. *)
Definition keeps_file {Node A : Type} (c : @M Node A) : Prop :=
  forall w, out_txt (snd (c w)) = out_txt w /\
            out_writable (snd (c w)) = out_writable w.

End Vocabulary.

(** ** Properties of the helpers *)

Section Properties.

Context {num : Type} {PF : PyFloat num}.

Local Open Scope result_scope.

Lemma py_getitem_0_cons {A} (a : A) (l : list A) :
  py_getitem (a :: l) 0 = Ok a.
Proof.
  unfold py_getitem. cbn [Z.ltb Z.compare List.length].
  rewrite Nat2Z.inj_succ.
  replace ((0 <=? 0)%Z && (0 <? Z.succ (Z.of_nat (List.length l)))%Z)
    with true.
  - reflexivity.
  - symmetry. apply andb_true_intro. split.
    + reflexivity.
    + apply Z.ltb_lt. lia.
Qed.

Lemma py_getitem_0_nil {A} : py_getitem (@nil A) 0 = Raise IndexError.
Proof. reflexivity. Qed.

Lemma py_in_spec (x : string) (l : list string) :
  py_in x l = true <-> In x l.
Proof.
  unfold py_in. rewrite existsb_exists. split.
  - intros [y [Hy Heq]]. apply String.eqb_eq in Heq. now subst.
  - intros Hin. exists x. split; [assumption | apply String.eqb_refl].
Qed.

Lemma py_in_false (x : string) (l : list string) :
  py_in x l = false <-> ~ In x l.
Proof.
  rewrite <- py_in_spec. destruct (py_in x l); split; intros; congruence.
Qed.

Lemma for_each_app {A S} (l1 l2 : list A) (s : S) (body : S -> A -> result S) :
  for_each (l1 ++ l2)%list s body
  = rbind (for_each l1 s body) (fun s' => for_each l2 s' body).
Proof.
  revert s. induction l1 as [| a l1 IH]; intros s; simpl.
  - reflexivity.
  - destruct (body s a) as [s' | e]; simpl; [apply IH | reflexivity].
Qed.

(** *** Input resolution *)

Lemma fee_loop_resolved (client : @Client num) (vins : list Vin)
    (outs : list (@Vout num)) (acc : pyval) :
  Forall2 (resolves client) vins outs ->
  for_each vins acc (fun total_input vin =>
      prev_tx <- getrawtransaction client (vin_txid vin) ;;
      prev_decoded <- decoderawtransaction client prev_tx ;;
      prev_output <- py_getitem (tx_vout prev_decoded) (vin_vout vin) ;;
      Ok (py_add total_input (PNum (vout_value prev_output))))
  = Ok (fold_left py_add (map (fun o => PNum (vout_value o)) outs) acc).
Proof.
  intros H. revert acc.
  induction H as [| vin o vins outs (raw & prev & Hraw & Hdec & Hout) _ IH];
    intros acc; simpl.
  - reflexivity.
  - rewrite Hraw. simpl. rewrite Hdec. simpl. rewrite Hout. simpl. apply IH.
Qed.

(** X1: what [calculate_transaction_fee] returns when every input
    resolves: the sum of the outputs minus the sum of the resolved inputs. *)
Lemma calculate_transaction_fee_resolved (client : @Client num)
    (decoded_tx : @DecodedTx num) (prev_outputs : list (@Vout num)) :
  Forall2 (resolves client) (tx_vin decoded_tx) prev_outputs ->
  calculate_transaction_fee client decoded_tx
  = Ok (py_sub
          (py_sum (map (fun o => PNum (vout_value o)) (tx_vout decoded_tx)))
          (py_sum (map (fun o => PNum (vout_value o)) prev_outputs))).
Proof.
  intros H. unfold calculate_transaction_fee.
  rewrite (fee_loop_resolved _ _ _ _ H). reflexivity.
Qed.

(** C2: when the transaction has a first input and the accessor
    dereferences it to an output [o] whose address list is [a :: rest],
    [extract_input_details] returns [a] and the value of [o]. *)
Theorem extract_input_details_resolved (client : @Client num)
    (decoded_tx : @DecodedTx num) (first_vin : Vin) (other_vins : list Vin)
    (o : @Vout num) (a : string) (rest : list string) :
  tx_vin decoded_tx = first_vin :: other_vins ->
  resolves client first_vin o ->
  spk_addresses (vout_scriptPubKey o) = Some (a :: rest) ->
  extract_input_details client decoded_tx = Ok (a, vout_value o).
Proof.
  intros Hvin (raw & prev & Hraw & Hdec & Hout) Haddr.
  unfold extract_input_details.
  rewrite Hvin, py_getitem_0_cons. cbn [rbind].
  rewrite Hraw. cbn [rbind]. rewrite Hdec. cbn [rbind].
  rewrite Hout. cbn [rbind]. rewrite Haddr. cbn [rbind py_getkey].
  rewrite py_getitem_0_cons. reflexivity.
Qed.

(** C3, as the code has it: when the output that the first input
    references has no [addresses] key, [extract_input_details] raises
    [KeyError]; when the key holds an empty list, it raises [IndexError].
    In both cases nothing is returned. *)
Theorem extract_input_details_no_address (client : @Client num)
    (decoded_tx : @DecodedTx num) (first_vin : Vin) (other_vins : list Vin)
    (o : @Vout num) :
  tx_vin decoded_tx = first_vin :: other_vins ->
  resolves client first_vin o ->
  spk_addresses (vout_scriptPubKey o) = None \/
  spk_addresses (vout_scriptPubKey o) = Some [] ->
  extract_input_details client decoded_tx
  = Raise (match spk_addresses (vout_scriptPubKey o) with
           | None => KeyError "addresses"
           | Some _ => IndexError
           end).
Proof.
  intros Hvin (raw & prev & Hraw & Hdec & Hout) Haddr.
  unfold extract_input_details.
  rewrite Hvin, py_getitem_0_cons. cbn [rbind].
  rewrite Hraw. simpl. rewrite Hdec. simpl. rewrite Hout. simpl.
  destruct Haddr as [Haddr | Haddr]; rewrite Haddr; reflexivity.
Qed.

(** *** Output classification *)

Lemma classify_vout_unaddressed (r : string) (vars : string * @pyval num * @pyval num)
    (v : @Vout num) :
  spk_addresses (vout_scriptPubKey v) = None ->
  classify_vout r vars v = Ok vars.
Proof.
  intros H. destruct vars as [[ca cm] ta].
  unfold classify_vout. rewrite H. reflexivity.
Qed.

Lemma classify_vout_change (r ca : string) (cm ta : @pyval num) (v : @Vout num)
    (a : string) (rest : list string) :
  change_like r v = true ->
  spk_addresses (vout_scriptPubKey v) = Some (a :: rest) ->
  classify_vout r (ca, cm, ta) v = Ok (a, PNum (vout_value v), ta).
Proof.
  unfold change_like, classify_vout. intros Hc Ha. rewrite Ha in *.
  apply negb_true_iff in Hc. rewrite Hc.
  rewrite py_getitem_0_cons. reflexivity.
Qed.

Lemma classify_vout_not_change (r ca : string) (cm ta : @pyval num) (v : @Vout num) :
  change_like r v = false ->
  exists ta', classify_vout r (ca, cm, ta) v = Ok (ca, cm, ta').
Proof.
  unfold change_like, classify_vout. intros Hc.
  destruct (spk_addresses (vout_scriptPubKey v)) as [l |].
  - apply negb_false_iff in Hc. rewrite Hc. eauto.
  - eauto.
Qed.

Lemma classify_loop_not_change (r : string) (outs : list (@Vout num)) :
  (forall u, In u outs -> change_like r u = false) ->
  forall (ca : string) (cm ta : @pyval num),
  exists ta', for_each outs (ca, cm, ta) (classify_vout r) = Ok (ca, cm, ta').
Proof.
  induction outs as [| v outs IH]; intros Hno ca cm ta; cbn [for_each].
  - eauto.
  - destruct (classify_vout_not_change r ca cm ta v) as [ta1 H1].
    + apply Hno. now left.
    + rewrite H1. cbn [rbind]. apply IH. intros u Hu. apply Hno. now right.
Qed.

Lemma classify_loop_total (r : string) (outs : list (@Vout num)) :
  (forall u, In u outs -> spk_addresses (vout_scriptPubKey u) <> Some []) ->
  forall vars, exists vars', for_each outs vars (classify_vout r) = Ok vars'.
Proof.
  induction outs as [| v outs IH]; intros Hne vars; cbn [for_each].
  - eauto.
  - assert (exists vars1, classify_vout r vars v = Ok vars1) as [vars1 H1].
    { destruct vars as [[ca cm] ta]. unfold classify_vout.
      destruct (spk_addresses (vout_scriptPubKey v)) as [[| a l] |] eqn:Ha.
      - exfalso. apply (Hne v); [now left | assumption].
      - destruct (py_in r (a :: l)); [eauto |].
        rewrite py_getitem_0_cons. cbn [rbind]. eauto.
      - eauto. }
    rewrite H1. cbn [rbind]. apply IH. intros u Hu. apply Hne. now right.
Qed.

(** C6, as the code has it: when the output list is [pre ++ v :: post]
    where [v] is change-like, no output of [post] is, some output of [pre]
    is, and no output carries an empty address list, the classifier
    returns the first address of [v] and the value of [v]. *)
Theorem extract_output_details_last_change_wins (decoded_tx : @DecodedTx num)
    (r : string) (pre post : list (@Vout num)) (v : @Vout num)
    (a : string) (rest : list string) :
  tx_vout decoded_tx = (pre ++ v :: post)%list ->
  (exists u, In u pre /\ change_like r u = true) ->
  change_like r v = true ->
  (forall u, In u post -> change_like r u = false) ->
  (forall u, In u (tx_vout decoded_tx) ->
     spk_addresses (vout_scriptPubKey u) <> Some []) ->
  spk_addresses (vout_scriptPubKey v) = Some (a :: rest) ->
  exists trader_amount,
    extract_output_details decoded_tx r
    = Ok (a, PNum (vout_value v), trader_amount).
Proof.
  intros Houts _ Hv Hpost Hne Ha.
  unfold extract_output_details. rewrite Houts in *.
  rewrite for_each_app.
  destruct (classify_loop_total r pre) with (vars := ("", @PInt num 0, @PInt num 0))
    as [[[ca cm] ta] Hpre].
  { intros u Hu. apply Hne. apply in_or_app. now left. }
  rewrite Hpre. cbn [rbind for_each].
  rewrite (classify_vout_change r ca cm ta v a rest Hv Ha). cbn [rbind].
  apply classify_loop_not_change. assumption.
Qed.


Lemma classify_loop_no_recipient (r : string) (outs : list (@Vout num)) :
  (forall u l, In u outs -> spk_addresses (vout_scriptPubKey u) = Some l ->
     ~ In r l) ->
  (forall u, In u outs -> spk_addresses (vout_scriptPubKey u) <> Some []) ->
  forall (ca : string) (cm ta : @pyval num),
  exists ca' cm', for_each outs (ca, cm, ta) (classify_vout r) = Ok (ca', cm', ta).
Proof.
  induction outs as [| v outs IH]; intros Hno Hne ca cm ta; cbn [for_each].
  - eauto.
  - assert (exists ca1 cm1, classify_vout r (ca, cm, ta) v = Ok (ca1, cm1, ta))
      as (ca1 & cm1 & H1).
    { unfold classify_vout.
      destruct (spk_addresses (vout_scriptPubKey v)) as [[| a l] |] eqn:Ha.
      - exfalso. apply (Hne v); [now left | assumption].
      - assert (py_in r (a :: l) = false) as ->.
        { apply py_in_false. apply (Hno v); [now left | assumption]. }
        rewrite py_getitem_0_cons. cbn [rbind]. eauto.
      - eauto. }
    rewrite H1. cbn [rbind]. apply IH.
    + intros u l Hu. apply Hno. now right.
    + intros u Hu. apply Hne. now right.
Qed.

(** C8, as the code has it: when no output's address list contains the
    recipient and no output carries an empty address list, the classifier
    returns normally and the recipient amount is the integer 0. *)
Theorem extract_output_details_no_recipient (decoded_tx : @DecodedTx num)
    (r : string) :
  (forall u l, In u (tx_vout decoded_tx) ->
     spk_addresses (vout_scriptPubKey u) = Some l -> ~ In r l) ->
  (forall u, In u (tx_vout decoded_tx) ->
     spk_addresses (vout_scriptPubKey u) <> Some []) ->
  exists change_address change_amount,
    extract_output_details decoded_tx r
    = Ok (change_address, change_amount, PInt 0).
Proof.
  intros Hno Hne. unfold extract_output_details.
  apply classify_loop_no_recipient; assumption.
Qed.

Lemma extract_output_details_no_change (decoded_tx : @DecodedTx num) (r : string) :
  (forall u l, In u (tx_vout decoded_tx) ->
     spk_addresses (vout_scriptPubKey u) = Some l -> In r l) ->
  exists trader_amount,
    extract_output_details decoded_tx r = Ok ("", PInt 0, trader_amount).
Proof.
  intros Hall. unfold extract_output_details.
  apply classify_loop_not_change. intros u Hu. unfold change_like.
  destruct (spk_addresses (vout_scriptPubKey u)) as [l |] eqn:Ha.
  - apply negb_false_iff, py_in_spec. now apply (Hall u).
  - reflexivity.
Qed.

End Properties.

(** ** Properties of the report writer and of the pipeline *)

Section PipelineProperties.

Context {num : Type} {PF : PyFloat num} {Node : Type} {RPC : @NodeRPC num Node}.
Variable int_is_integer : bool.
Variable script_dir : string.

Lemma append_assoc (s1 s2 s3 : string) :
  (s1 ++ s2) ++ s3 = s1 ++ (s2 ++ s3).
Proof.
  induction s1 as [| c s1 IH]; simpl; [reflexivity | now rewrite IH].
Qed.

(** The world that a complete run of [write_output_file] leaves. *)
Lemma write_output_file_content
    (txid input_address : string) (input_amount : @pyval num)
    (trader_address : string) (trader_amount : @pyval num)
    (change_address : string) (change_amount fee : @pyval num)
    (block_height : Z) (block_hash : string)
    (w : @World Node) (whole_input whole_trader : bool) :
  out_writable w = true ->
  is_integer int_is_integer input_amount = Ok whole_input ->
  is_integer int_is_integer trader_amount = Ok whole_trader ->
  write_output_file int_is_integer script_dir
    txid input_address input_amount trader_address trader_amount
    change_address change_amount fee block_height block_hash w
  = (Ok tt,
     {| node := node w;
        stdout := (stdout w ++
          [("Output written to: "
            ++ path_join (path_join script_dir "..") "out.txt")%string])%list;
        out_txt := Some (unlines
          [txid;
           input_address;
           if whole_input then str_int (py_int input_amount)
           else py_str input_amount;
           trader_address;
           if whole_trader then str_int (py_int trader_amount)
           else py_str trader_amount;
           change_address;
           py_str change_amount;
           py_str fee;
           str_int block_height;
           block_hash]);
        out_writable := true |}).
Proof.
  intros Hw Hi Ht.
  unfold write_output_file, makedirs_exist_ok, bind, open_w, lift. rewrite Hw, Hi, Ht.
  destruct whole_input, whole_trader;
    cbn [f_write print node stdout out_txt out_writable unlines];
    rewrite ?append_assoc; reflexivity.
Qed.

(** X15: when out.txt can be opened and [is_integer] is defined on the two
    amounts it is called on, [write_output_file] returns normally and
    leaves a file that consists of ten newline-terminated lines, one per
    field, in the order txid, input address, input amount, recipient
    address, recipient amount, change address, change amount, fee, block
    height, block hash, and of nothing else. *)
Theorem write_output_file_ten_lines
    (txid input_address : string) (input_amount : @pyval num)
    (trader_address : string) (trader_amount : @pyval num)
    (change_address : string) (change_amount fee : @pyval num)
    (block_height : Z) (block_hash : string)
    (w : @World Node) (whole_input whole_trader : bool) :
  out_writable w = true ->
  is_integer int_is_integer input_amount = Ok whole_input ->
  is_integer int_is_integer trader_amount = Ok whole_trader ->
  exists w',
    write_output_file int_is_integer script_dir
      txid input_address input_amount trader_address trader_amount
      change_address change_amount fee block_height block_hash w
    = (Ok tt, w') /\
    out_txt w' = Some (unlines
      [txid;
       input_address;
       if whole_input then str_int (py_int input_amount)
       else py_str input_amount;
       trader_address;
       if whole_trader then str_int (py_int trader_amount)
       else py_str trader_amount;
       change_address;
       py_str change_amount;
       py_str fee;
       str_int block_height;
       block_hash]).
Proof.
  intros Hw Hi Ht. eexists. split.
  - apply write_output_file_content; eassumption.
  - reflexivity.
Qed.

(** When every output that has the key [addresses] lists the recipient,
    the classifier returns the empty string and the integer 0 for the
    change, and a report that the writer completes with these values (out.txt
    can be opened, [is_integer] is defined on both amounts) has an empty
    sixth line (the change address) followed by the line [0]. *)
Lemma no_change_output_gives_empty_line (decoded_tx : @DecodedTx num)
    (r : string) :
  (forall u l, In u (tx_vout decoded_tx) ->
     spk_addresses (vout_scriptPubKey u) = Some l -> In r l) ->
  exists trader_amount,
    extract_output_details decoded_tx r = Ok ("", PInt 0, trader_amount) /\
    forall (txid input_address : string) (input_amount fee : @pyval num)
           (block_height : Z) (block_hash : string)
           (w : @World Node) (whole_input whole_trader : bool),
      out_writable w = true ->
      is_integer int_is_integer input_amount = Ok whole_input ->
      is_integer int_is_integer trader_amount = Ok whole_trader ->
      exists w',
        write_output_file int_is_integer script_dir
          txid input_address input_amount r trader_amount
          "" (PInt 0) fee block_height block_hash w
        = (Ok tt, w') /\
        out_txt w' = Some (unlines
          [txid;
           input_address;
           if whole_input then str_int (py_int input_amount)
           else py_str input_amount;
           r;
           if whole_trader then str_int (py_int trader_amount)
           else py_str trader_amount;
           "";
           "0";
           py_str fee;
           str_int block_height;
           block_hash]).
Proof.
  intros Hall.
  destruct (extract_output_details_no_change decoded_tx r Hall) as [ta Hta].
  exists ta. split; [assumption |].
  intros txid input_address input_amount fee block_height block_hash w
         whole_input whole_trader Hw Hi Ht.
  eexists. split.
  - apply write_output_file_content; eassumption.
  - reflexivity.
Qed.

(** Where [is_integer] is defined: on the node's numbers when their type
    has the method, and on a Python integer (the recipient amount stays
    the integer 0 when no output pays the recipient) when [int] has it. *)
Lemma is_integer_PNum (x : num) :
  is_integer int_is_integer (PNum x)
  = if num_has_is_integer then Ok (num_is_integer x)
    else Raise (AttributeError
                  ("'" ++ num_type_name
                   ++ "' object has no attribute 'is_integer'")).
Proof. reflexivity. Qed.

Lemma is_integer_PInt (i : Z) :
  is_integer int_is_integer (@PInt num i)
  = if int_is_integer then Ok true
    else Raise (AttributeError "'int' object has no attribute 'is_integer'").
Proof. reflexivity. Qed.

(** When [is_integer] raises on the input amount, the writer raises after
    the first two lines. *)
Lemma write_output_file_stops_at_input_amount
    (txid input_address : string) (input_amount : @pyval num)
    (trader_address : string) (trader_amount : @pyval num)
    (change_address : string) (change_amount fee : @pyval num)
    (block_height : Z) (block_hash : string) (w : @World Node) (e : exn) :
  out_writable w = true ->
  is_integer int_is_integer input_amount = Raise e ->
  write_output_file int_is_integer script_dir
    txid input_address input_amount trader_address trader_amount
    change_address change_amount fee block_height block_hash w
  = (Raise e,
     {| node := node w;
        stdout := stdout w;
        out_txt := Some (unlines [txid; input_address]);
        out_writable := true |}).
Proof.
  intros Hw Hi.
  unfold write_output_file, makedirs_exist_ok, bind, open_w, lift.
  rewrite Hw, Hi.
  cbn [f_write print node stdout out_txt out_writable unlines].
  rewrite ?append_assoc. reflexivity.
Qed.

(** When [is_integer] returns on the input amount and raises on the
    recipient amount, the writer raises after the first four lines. *)
Lemma write_output_file_stops_at_recipient_amount
    (txid input_address : string) (input_amount : @pyval num)
    (trader_address : string) (trader_amount : @pyval num)
    (change_address : string) (change_amount fee : @pyval num)
    (block_height : Z) (block_hash : string) (w : @World Node)
    (whole_input : bool) (e : exn) :
  out_writable w = true ->
  is_integer int_is_integer input_amount = Ok whole_input ->
  is_integer int_is_integer trader_amount = Raise e ->
  write_output_file int_is_integer script_dir
    txid input_address input_amount trader_address trader_amount
    change_address change_amount fee block_height block_hash w
  = (Raise e,
     {| node := node w;
        stdout := stdout w;
        out_txt := Some (unlines
          [txid;
           input_address;
           if whole_input then str_int (py_int input_amount)
           else py_str input_amount;
           trader_address]);
        out_writable := true |}).
Proof.
  intros Hw Hi Ht.
  unfold write_output_file, makedirs_exist_ok, bind, open_w, lift.
  rewrite Hw, Hi, Ht.
  destruct whole_input;
    cbn [f_write print node stdout out_txt out_writable unlines];
    rewrite ?append_assoc; reflexivity.
Qed.

(** *** Nothing before the write step touches the file *)

Lemma keeps_file_ret {A} (a : A) : keeps_file (@ret Node A a).
Proof. intros w. split; reflexivity. Qed.

Lemma keeps_file_lift {A} (r : result A) : keeps_file (@lift Node A r).
Proof. intros w. split; reflexivity. Qed.

Lemma keeps_file_query {A} (q : Node -> result A) : keeps_file (query q).
Proof. intros w. split; reflexivity. Qed.

Lemma keeps_file_print (line : string) : keeps_file (@print Node line).
Proof. intros w. split; reflexivity. Qed.

Lemma keeps_file_call {A} (c : Node -> result (A * Node)) :
  keeps_file (call c).
Proof.
  intros w. unfold call.
  destruct (c (node w)) as [[a n'] | e]; split; reflexivity.
Qed.

Lemma keeps_file_call_ (c : Node -> result Node) : keeps_file (call_ c).
Proof. apply keeps_file_call. Qed.

Lemma keeps_file_bind {A B} (c : @M Node A) (k : A -> @M Node B) :
  keeps_file c -> (forall a, keeps_file (k a)) -> keeps_file (bind c k).
Proof.
  intros Hc Hk w. unfold bind.
  destruct (Hc w) as [Hc1 Hc2].
  destruct (c w) as [[a | e] w1]; cbn [snd] in *.
  - destruct (Hk a w1) as [Hk1 Hk2]. split; congruence.
  - split; assumption.
Qed.

Lemma keeps_file_for_m {A} (l : list A) (body : A -> @M Node unit) :
  (forall a, keeps_file (body a)) -> keeps_file (for_m l body).
Proof.
  intros Hbody. induction l as [| a l IH]; cbn [for_m].
  - apply keeps_file_ret.
  - apply keeps_file_bind; [apply Hbody | intros _; apply IH].
Qed.

Ltac keeps_file_step :=
  match goal with
  | |- keeps_file (bind _ _) => apply keeps_file_bind; [| intros ?]
  | |- keeps_file (for_m _ _) => apply keeps_file_for_m; intros ?
  | |- keeps_file (ret _) => apply keeps_file_ret
  | |- keeps_file (lift _) => apply keeps_file_lift
  | |- keeps_file (query _) => apply keeps_file_query
  | |- keeps_file (print _) => apply keeps_file_print
  | |- keeps_file (call_ _) => apply keeps_file_call_
  | |- keeps_file (call _) => apply keeps_file_call
  | |- keeps_file (if ?b then _ else _) => destruct b
  | |- keeps_file (match ?p with (_, _) => _ end) => destruct p
  end.

Lemma main_derive_keeps_file : keeps_file (@main_derive num PF Node RPC).
Proof.
  unfold main_derive. cbv zeta. repeat keeps_file_step.
Qed.

(** C9: when any statement of [main] before the call of
    [write_output_file] raises, [main] prints the diagnostic of the
    exception and returns, and out.txt is what it was before the run:
    [write_output_file] is not reached. *)
Theorem main_error_before_write (w w' : @World Node) (e : exn) :
  main_derive w = (Raise e, w') ->
  main int_is_integer script_dir w
  = (Ok tt,
     {| node := node w';
        stdout := (stdout w' ++ [diagnostic e])%list;
        out_txt := out_txt w;
        out_writable := out_writable w |}).
Proof.
  intros H. unfold main, main_try, bind. rewrite H. unfold print.
  destruct (main_derive_keeps_file w) as [Hf Hw].
  rewrite H in Hf, Hw. cbn [snd] in Hf, Hw. rewrite Hf, Hw. reflexivity.
Qed.

(** When the derivation succeeds, [main] goes on with the call of
    [write_output_file] on the ten derived values. *)
Lemma main_after_derive (w w1 : @World Node) (r : @Fields num) :
  main_derive w = (Ok r, w1) ->
  main int_is_integer script_dir w
  = match write_output_file int_is_integer script_dir
            (f_txid r) (f_input_address r) (f_input_amount r)
            (f_trader_receive_address r) (f_trader_amount r)
            (f_change_address r) (f_change_amount r)
            (f_fee r) (f_block_height r) (f_confirm_block_hash r) w1 with
    | (Ok _, w2) => (Ok tt, w2)
    | (Raise e, w2) => print (diagnostic e) w2
    end.
Proof.
  intros H. unfold main, main_try, bind. rewrite H. reflexivity.
Qed.

End PipelineProperties.

(** ** The properties on concrete transactions *)

(** C1: on T2, whose input resolves to 50 and whose outputs are 20 and
    29.5, [calculate_transaction_fee] returns -0.5, the outputs minus the
    inputs, where the fee of the specification is 0.5. *)
Theorem calculate_transaction_fee_negated :
  Forall2 (resolves (client_of full_node)) (tx_vin tx2)
    [addressed (50 * coin) ["addrMiner"]] /\
  calculate_transaction_fee (client_of full_node) tx2
  = Ok (PNum (Sat (-50000000))) /\
  spec_compute_fee [Sat (50 * coin)] (map vout_value (tx_vout tx2))
  = PNum (Sat 50000000).
Proof.
  split; [| split].
  - constructor; [| constructor].
    exists "raw:T1", tx1. repeat split.
  - reflexivity.
  - reflexivity.
Qed.

Lemma extract_input_details_resolved_witness :
  extract_input_details (client_of full_node) tx2
  = Ok ("addrMiner", Sat (50 * coin)).
Proof.
  apply (extract_input_details_resolved (client_of full_node) tx2
           {| vin_txid := "T1"; vin_vout := 0 |} []
           (addressed (50 * coin) ["addrMiner"]) "addrMiner" []).
  - reflexivity.
  - exists "raw:T1", tx1. repeat split.
  - reflexivity.
Defined.

(** C3 as stated fails: the first input of T3 references an output
    without addresses, and the exception that [extract_input_details]
    raises is not an AddressResolutionError. *)
Lemma extract_input_details_raises_no_AddressResolutionError :
  resolves (client_of data_carrier_node)
    {| vin_txid := "T0"; vin_vout := 0 |} (unaddressed (50 * coin)) /\
  ~ (exists e,
       extract_input_details (client_of data_carrier_node) tx3 = Raise e /\
       exn_class e = "AddressResolutionError").
Proof.
  split.
  - exists "raw:T0", tx0. repeat split.
  - intros (e & He & Hcls). vm_compute in He.
    injection He as <-. discriminate Hcls.
Qed.

Lemma extract_input_details_no_address_witness :
  extract_input_details (client_of data_carrier_node) tx3
  = Raise (KeyError "addresses").
Proof.
  apply (extract_input_details_no_address (client_of data_carrier_node) tx3
           {| vin_txid := "T0"; vin_vout := 0 |} []
           (unaddressed (50 * coin))).
  - reflexivity.
  - exists "raw:T0", tx0. repeat split.
  - left. reflexivity.
Defined.

(** The same input resolution when the referenced output has the key
    [addresses] with an empty list. *)
Example extract_input_details_empty_address_list :
  extract_input_details
    (client_of [("T0", tx_of_outputs [addressed (50 * coin) []]); ("T3", tx3)])
    tx3
  = Raise IndexError.
Proof. reflexivity. Qed.

(** C6 as stated fails: of three outputs that do not pay the recipient A,
    two have an address, and the classifier raises [IndexError] on the
    third, whose address list is empty, instead of returning the second. *)
Lemma extract_output_details_empty_address_list_raises :
  (1 < List.length (filter (change_like "A")
         [addressed 1 ["B"]; addressed 2 ["C"]; addressed 3 []]))%nat /\
  (1 < List.length (filter (change_like_nonempty "A")
         [addressed 1 ["B"]; addressed 2 ["C"]; addressed 3 []]))%nat /\
  extract_output_details
    (tx_of_outputs [addressed 1 ["B"]; addressed 2 ["C"]; addressed 3 []]) "A"
  = Raise IndexError.
Proof.
  split; [| split].
  - vm_compute. lia.
  - vm_compute. lia.
  - reflexivity.
Qed.

Lemma extract_output_details_last_change_wins_witness :
  exists trader_amount,
    extract_output_details
      (tx_of_outputs [addressed 1 ["B"]; addressed 20 ["A"]; addressed 2 ["C"];
                      unaddressed 0]) "A"
    = Ok ("C", PNum (Sat 2), trader_amount).
Proof.
  apply (extract_output_details_last_change_wins
           (tx_of_outputs [addressed 1 ["B"]; addressed 20 ["A"];
                           addressed 2 ["C"]; unaddressed 0])
           "A" [addressed 1 ["B"]; addressed 20 ["A"]] [unaddressed 0]
           (addressed 2 ["C"]) "C" []).
  - reflexivity.
  - exists (addressed 1 ["B"]). split; [left; reflexivity | reflexivity].
  - reflexivity.
  - intros u [<- | []]. reflexivity.
  - intros u [<- | [<- | [<- | [<- | []]]]]; discriminate.
  - reflexivity.
Defined.


(** C8 as stated fails: the only output has an empty address list, which
    does not contain the recipient A, and the classifier raises
    [IndexError] instead of returning a recipient amount of zero. *)
Lemma extract_output_details_no_recipient_raises :
  (forall u l, In u [addressed 3 []] ->
     spk_addresses (vout_scriptPubKey u) = Some l -> ~ In "A" l) /\
  extract_output_details (tx_of_outputs [addressed 3 []]) "A"
  = Raise IndexError.
Proof.
  split.
  - intros u l [<- | []] Hl. injection Hl as <-. intros [].
  - reflexivity.
Qed.

Lemma extract_output_details_no_recipient_witness :
  exists change_address change_amount,
    extract_output_details
      (tx_of_outputs [addressed 5 ["B"]; unaddressed 0]) "A"
    = Ok (change_address, change_amount, PInt 0).
Proof.
  apply (extract_output_details_no_recipient
           (tx_of_outputs [addressed 5 ["B"]; unaddressed 0]) "A").
  - intros u l [<- | [<- | []]] Hl; [| discriminate Hl].
    injection Hl as <-. intros [H | []]. discriminate H.
  - intros u [<- | [<- | []]]; discriminate.
Defined.

(** C4: with the amounts as the client of line 1 delivers them
    ([decimal.Decimal], which has no [is_integer]), [write_output_file]
    raises at the test of the input amount and leaves two lines in
    out.txt, not ten; with [float] amounts and a recipient amount that is
    still the integer 0, where [int] has no [is_integer], it raises at the
    test of the recipient amount and leaves four. *)
Theorem write_output_file_stops_short :
  write_output_file true "src"
    "T2" "addrMiner" (PNum (Dec (50 * coin)))
    "addrTrader" (PNum (Dec (20 * coin)))
    "addrMiner2" (PNum (Dec 2999998590)) (PNum (Dec (-1410)))
    102 "blockhash" dec_world
  = (Raise (AttributeError
              "'decimal.Decimal' object has no attribute 'is_integer'"),
     {| node := dec_node; stdout := [];
        out_txt := Some (unlines ["T2"; "addrMiner"]);
        out_writable := true |}) /\
  write_output_file false "src"
    "T2" "addrMiner" (PNum (Sat (50 * coin)))
    "addrTrader" (PInt 0)
    "addrOther" (PNum (Sat 4950000000)) (PNum (Sat (-50000000)))
    102 "blockhash" (fresh_world unpaid_node)
  = (Raise (AttributeError "'int' object has no attribute 'is_integer'"),
     {| node := unpaid_node; stdout := [];
        out_txt := Some (unlines ["T2"; "addrMiner"; "50"; "addrTrader"]);
        out_writable := true |}).
Proof. split; reflexivity. Qed.

(** C10: without a change-like output the classifier returns the empty
    string and the integer 0 for the change, but the report does not get
    its empty change-address line: with the amounts of the client of
    line 1 the writer raises after two lines, and with [float] amounts, no
    output at all and an [int] without [is_integer], after four. *)
Theorem no_change_output_report_stops_short :
  extract_output_details
    {| tx_vin := [{| vin_txid := "T1"; vin_vout := 0 |}];
       tx_vout := [dec_vout (20 * coin) ["addrTrader"]] |} "addrTrader"
  = Ok ("", PInt 0, PNum (Dec (20 * coin))) /\
  out_txt (snd (write_output_file true "src"
                  "T2" "addrMiner" (PNum (Dec (50 * coin)))
                  "addrTrader" (PNum (Dec (20 * coin)))
                  "" (PInt 0) (PNum (Dec (-30 * coin)))
                  102 "blockhash" dec_world))
  = Some (unlines ["T2"; "addrMiner"]) /\
  extract_output_details (tx_of_outputs []) "addrTrader"
  = Ok ("", PInt 0, PInt 0) /\
  out_txt (snd (write_output_file false "src"
                  "T2" "addrMiner" (PNum (Sat (50 * coin)))
                  "addrTrader" (PInt 0)
                  "" (PInt 0) (PNum (Sat (-50 * coin)))
                  102 "blockhash" (fresh_world full_node)))
  = Some (unlines ["T2"; "addrMiner"; "50"; "addrTrader"]).
Proof. repeat split; reflexivity. Qed.

Lemma write_output_file_ten_lines_witness :
  exists w',
    write_output_file true "src"
      "T2" "addrMiner" (PNum (Sat (50 * coin)))
      "addrTrader" (PNum (Sat (20 * coin)))
      "addrChange" (PNum (Sat 2999878000)) (PNum (Sat (-122000)))
      102 "blockhash" (fresh_world full_node)
    = (Ok tt, w') /\
    out_txt w' = Some (unlines
      ["T2"; "addrMiner"; "50"; "addrTrader"; "20"; "addrChange";
       "29.99878"; "-0.00122"; "102"; "blockhash"]).
Proof.
  exact (write_output_file_ten_lines true "src"
           "T2" "addrMiner" (PNum (Sat (50 * coin)))
           "addrTrader" (PNum (Sat (20 * coin)))
           "addrChange" (PNum (Sat 2999878000)) (PNum (Sat (-122000)))
           102 "blockhash" (fresh_world full_node) true true
           eq_refl eq_refl eq_refl).
Defined.

(** C5: a change amount of 30, a whole number, is written as [30.0]: the
    writer formats [change_amount] as it is, without the [is_integer] test
    that it applies to the input amount (50) and the recipient amount
    (20). *)
Theorem write_output_file_change_amount_not_collapsed :
  num_is_integer (Sat (30 * coin)) = true /\
  out_txt (snd (write_output_file true "src"
                  "T2" "addrMiner" (PNum (Sat (50 * coin)))
                  "addrTrader" (PNum (Sat (20 * coin)))
                  "addrChange" (PNum (Sat (30 * coin))) (PNum (Sat 0))
                  102 "blockhash" (fresh_world full_node)))
  = Some (unlines
      ["T2"; "addrMiner"; "50"; "addrTrader"; "20"; "addrChange";
       "30.0"; "0.0"; "102"; "blockhash"]).
Proof. split; reflexivity. Qed.

Lemma no_change_output_gives_empty_line_witness :
  extract_output_details
    (tx_of_outputs [addressed (20 * coin) ["addrTrader"]; unaddressed 0])
    "addrTrader"
  = Ok ("", PInt 0, PNum (Sat (20 * coin))) /\
  exists w',
    write_output_file true "src"
      "T2" "addrMiner" (PNum (Sat (50 * coin)))
      "addrTrader" (PNum (Sat (20 * coin)))
      "" (PInt 0) (PNum (Sat (-30 * coin)))
      102 "blockhash" (fresh_world full_node)
    = (Ok tt, w') /\
    out_txt w' = Some (unlines
      ["T2"; "addrMiner"; "50"; "addrTrader"; "20"; ""; "0"; "-30.0"; "102";
       "blockhash"]).
Proof.
  destruct (no_change_output_gives_empty_line (Node := FakeNode) true "src"
              (tx_of_outputs [addressed (20 * coin) ["addrTrader"];
                              unaddressed 0])
              "addrTrader") as [ta [Hex Hwr]].
  - intros u l [<- | [<- | []]] Hl; [| discriminate Hl].
    injection Hl as <-. left. reflexivity.
  - assert (ta = PNum (Sat (20 * coin))) as ->.
    { vm_compute in Hex. injection Hex as <-. reflexivity. }
    split; [reflexivity |].
    exact (Hwr "T2" "addrMiner" (PNum (Sat (50 * coin)))
               (PNum (Sat (-30 * coin))) 102%Z "blockhash"
               (fresh_world full_node) true true eq_refl eq_refl eq_refl).
Defined.

Lemma main_error_before_write_witness :
  exists w',
    main_derive (fresh_world pruned_node) = (Raise no_such_tx, w') /\
    main true "src" (fresh_world pruned_node)
    = (Ok tt,
       {| node := node w';
          stdout := (stdout w' ++ [diagnostic no_such_tx])%list;
          out_txt := None;
          out_writable := true |}).
Proof.
  eexists. split.
  - vm_compute. reflexivity.
  - apply (main_error_before_write true "src" (fresh_world pruned_node) _
             no_such_tx).
    vm_compute. reflexivity.
Defined.

(** A complete run against a node that knows both transactions: every
    statement succeeds and the report is written. *)
Example main_full_run :
  out_txt (snd (main true "src" (fresh_world full_node)))
  = Some (unlines
      ["T2"; "addrMiner"; "50"; "addrTrader"; "20"; "addrChange";
       "29.5"; "-0.5"; "102"; "blockhash"]).
Proof. reflexivity. Qed.

(** ** Further properties of the classifier *)

Section ClassifierProperties.

Context {num : Type} {PF : PyFloat num}.

Lemma classify_vout_well_formed (r : string) (v : @Vout num)
    (ca : string) (cm ta : @pyval num) :
  spk_addresses (vout_scriptPubKey v) <> Some [] ->
  classify_vout r (ca, cm, ta) v
  = Ok (if change_like r v then first_address v else ca,
        if change_like r v then PNum (vout_value v) else cm,
        if pays r v then PNum (vout_value v) else ta).
Proof.
  intros Hne. unfold classify_vout, change_like, pays, first_address.
  destruct (spk_addresses (vout_scriptPubKey v)) as [[| a l] |].
  - congruence.
  - destruct (py_in r (a :: l)); cbn [negb].
    + reflexivity.
    + rewrite py_getitem_0_cons. reflexivity.
  - reflexivity.
Qed.

Lemma classify_loop_classification (r : string) (outs : list (@Vout num)) :
  (forall u, In u outs -> spk_addresses (vout_scriptPubKey u) <> Some []) ->
  forall (ca : string) (cm ta : @pyval num),
  for_each outs (ca, cm, ta) (classify_vout r)
  = Ok (match last_where (change_like r) outs with
        | Some v => first_address v
        | None => ca
        end,
        match last_where (change_like r) outs with
        | Some v => PNum (vout_value v)
        | None => cm
        end,
        match last_where (pays r) outs with
        | Some v => PNum (vout_value v)
        | None => ta
        end).
Proof.
  induction outs as [| v outs IH]; intros Hne ca cm ta; cbn [for_each last_where].
  - reflexivity.
  - rewrite classify_vout_well_formed by (apply Hne; now left).
    cbn [rbind]. rewrite IH by (intros u Hu; apply Hne; now right).
    destruct (last_where (change_like r) outs), (last_where (pays r) outs),
      (change_like r v), (pays r v); reflexivity.
Qed.

(** X5: on a list without empty address lists the classifier returns the
    first address and the value of the last change-like output and the
    value of the last output that pays the recipient; a kind of output
    that does not occur leaves the empty string or the integer 0. *)
Theorem extract_output_details_classification (decoded_tx : @DecodedTx num)
    (r : string) :
  (forall u, In u (tx_vout decoded_tx) ->
     spk_addresses (vout_scriptPubKey u) <> Some []) ->
  extract_output_details decoded_tx r
  = Ok (classification r (tx_vout decoded_tx)).
Proof.
  intros Hne. unfold extract_output_details, classification.
  apply classify_loop_classification. assumption.
Qed.

Lemma classify_loop_empty_list (r : string) (outs : list (@Vout num)) :
  (exists u, In u outs /\ spk_addresses (vout_scriptPubKey u) = Some []) ->
  forall vars, for_each outs vars (classify_vout r) = Raise IndexError.
Proof.
  induction outs as [| v outs IH]; intros (u & Hu & Hempty) vars.
  - destruct Hu.
  - cbn [for_each].
    destruct (spk_addresses (vout_scriptPubKey v)) as [[| a l] |] eqn:Hv.
    + destruct vars as [[ca cm] ta]. unfold classify_vout. rewrite Hv.
      reflexivity.
    + destruct vars as [[ca cm] ta].
      rewrite classify_vout_well_formed by congruence. cbn [rbind].
      apply IH. exists u. split; [| assumption].
      destruct Hu as [<- | Hu]; [congruence | assumption].
    + rewrite classify_vout_unaddressed by assumption. cbn [rbind].
      apply IH. exists u. split; [| assumption].
      destruct Hu as [<- | Hu]; [congruence | assumption].
Qed.

Lemma empty_list_dec (outs : list (@Vout num)) :
  (exists u, In u outs /\ spk_addresses (vout_scriptPubKey u) = Some []) \/
  (forall u, In u outs -> spk_addresses (vout_scriptPubKey u) <> Some []).
Proof.
  induction outs as [| v outs [(u & Hu & He) | IH]].
  - right. intros u [].
  - left. exists u. split; [now right | assumption].
  - destruct (spk_addresses (vout_scriptPubKey v)) as [[| a l] |] eqn:Hv.
    + left. exists v. split; [now left | assumption].
    + right. intros u [<- | Hu]; [congruence | now apply IH].
    + right. intros u [<- | Hu]; [congruence | now apply IH].
Qed.

(** X6: the classifier raises exactly when some output has the key
    [addresses] with an empty list, and the exception is then
    [IndexError], whatever the recipient and the other outputs are. *)
Theorem extract_output_details_raises_iff (decoded_tx : @DecodedTx num)
    (r : string) (e : exn) :
  extract_output_details decoded_tx r = Raise e <->
  e = IndexError /\
  exists u, In u (tx_vout decoded_tx) /\
            spk_addresses (vout_scriptPubKey u) = Some [].
Proof.
  unfold extract_output_details. split.
  - intros H. destruct (empty_list_dec (tx_vout decoded_tx)) as [Hex | Hne].
    + rewrite (classify_loop_empty_list r _ Hex) in H.
      injection H as <-. split; [reflexivity | assumption].
    + rewrite (classify_loop_classification r _ Hne) in H. discriminate H.
  - intros [-> Hex]. apply classify_loop_empty_list. assumption.
Qed.

Lemma last_where_filter (p : @Vout num -> bool) (l : list (@Vout num)) :
  last_where p l = last_where p (filter p l).
Proof.
  induction l as [| v l IH]; cbn [last_where filter].
  - reflexivity.
  - destruct (p v) eqn:Hp; cbn [last_where].
    + rewrite Hp, IH. reflexivity.
    + rewrite IH. destruct (last_where p (filter p l)); reflexivity.
Qed.

Lemma filter_permutation (p : @Vout num -> bool) (l l' : list (@Vout num)) :
  Permutation l l' -> Permutation (filter p l) (filter p l').
Proof.
  induction 1 as [| x l l' _ IH | x y l | l l' l'' _ IH1 _ IH2];
    cbn [filter].
  - constructor.
  - destruct (p x); [now constructor | assumption].
  - destruct (p x), (p y); try apply Permutation_refl. constructor.
  - now transitivity (filter p l').
Qed.

Lemma last_where_permutation (p : @Vout num -> bool) (l l' : list (@Vout num)) :
  Permutation l l' ->
  (List.length (filter p l) <= 1)%nat ->
  last_where p l = last_where p l'.
Proof.
  intros Hperm Hlen.
  rewrite (last_where_filter p l), (last_where_filter p l').
  pose proof (filter_permutation p l l' Hperm) as Hf.
  destruct (filter p l) as [| x [| y t]].
  - apply Permutation_nil in Hf. rewrite Hf. reflexivity.
  - apply Permutation_length_1_inv in Hf. rewrite Hf. reflexivity.
  - cbn [List.length] in Hlen. lia.
Qed.

(** X7: when at most one output is change-like and at most one pays the
    recipient, the order of the outputs does not matter: the classifier
    gives the same result, or raises the same exception, on every
    permutation of the list. *)
Theorem extract_output_details_order_independent
    (decoded_tx decoded_tx' : @DecodedTx num) (r : string) :
  Permutation (tx_vout decoded_tx) (tx_vout decoded_tx') ->
  (List.length (filter (change_like r) (tx_vout decoded_tx)) <= 1)%nat ->
  (List.length (filter (pays r) (tx_vout decoded_tx)) <= 1)%nat ->
  extract_output_details decoded_tx r = extract_output_details decoded_tx' r.
Proof.
  intros Hperm Hc Hp. unfold extract_output_details.
  destruct (empty_list_dec (tx_vout decoded_tx)) as [(u & Hu & He) | Hne].
  - rewrite !classify_loop_empty_list; [reflexivity | |].
    + exists u. split; [| assumption].
      apply (Permutation_in _ Hperm). assumption.
    + exists u. split; assumption.
  - rewrite !classify_loop_classification.
    + rewrite (last_where_permutation _ _ _ Hperm Hc),
        (last_where_permutation _ _ _ Hperm Hp). reflexivity.
    + intros u Hu. apply Hne.
      apply (Permutation_in _ (Permutation_sym Hperm)). assumption.
    + assumption.
Qed.

End ClassifierProperties.

(** ** Further properties of the fee calculation and of input resolution *)

Section FeeProperties.

Context {num : Type} {PF : PyFloat num}.

Local Open Scope result_scope.

(** X2: the inputs are resolved in order, and the first one whose fetch,
    decoding or output subscript raises makes [calculate_transaction_fee]
    raise that exception; the inputs after it are not looked at. *)
Theorem calculate_transaction_fee_first_failure (client : @Client num)
    (decoded_tx : @DecodedTx num) (pre post : list Vin) (vin : Vin)
    (prev_outputs : list (@Vout num)) (e : exn) :
  tx_vin decoded_tx = (pre ++ vin :: post)%list ->
  Forall2 (resolves client) pre prev_outputs ->
  resolution_fails client vin e ->
  calculate_transaction_fee client decoded_tx = Raise e.
Proof.
  intros Hvin Hpre Hfail. unfold calculate_transaction_fee.
  rewrite Hvin, for_each_app, (fee_loop_resolved _ _ _ _ Hpre).
  cbn [rbind for_each].
  destruct Hfail as [H | [(raw & H1 & H) | (raw & prev & H1 & H2 & H)]].
  - rewrite H. reflexivity.
  - rewrite H1. cbn [rbind]. rewrite H. reflexivity.
  - rewrite H1. cbn [rbind]. rewrite H2. cbn [rbind]. rewrite H. reflexivity.
Qed.

(** X3: for a transaction with a single input, the amount that
    [extract_input_details] returns is the one that
    [calculate_transaction_fee] subtracts: the fee is the sum of the
    outputs minus [0 + input_amount]. *)
Theorem single_input_fee_matches_input_amount (client : @Client num)
    (decoded_tx : @DecodedTx num) (vin : Vin)
    (input_address : string) (input_amount : num) :
  tx_vin decoded_tx = [vin] ->
  extract_input_details client decoded_tx = Ok (input_address, input_amount) ->
  calculate_transaction_fee client decoded_tx
  = Ok (py_sub
          (py_sum (map (fun o => PNum (vout_value o)) (tx_vout decoded_tx)))
          (py_add (PInt 0) (PNum input_amount))).
Proof.
  intros Hvin H. unfold extract_input_details in H.
  unfold calculate_transaction_fee.
  rewrite Hvin in *. rewrite py_getitem_0_cons in H.
  cbn [rbind for_each] in *.
  destruct (getrawtransaction client (vin_txid vin)) as [raw |];
    [| discriminate H].
  cbn [rbind] in *.
  destruct (decoderawtransaction client raw) as [prev |]; [| discriminate H].
  cbn [rbind] in *.
  destruct (py_getitem (tx_vout prev) (vin_vout vin)) as [o |];
    [| discriminate H].
  cbn [rbind] in *.
  destruct (spk_addresses (vout_scriptPubKey o)) as [addresses |];
    [| discriminate H].
  cbn [rbind py_getkey] in H.
  destruct (py_getitem addresses 0) as [a |]; [| discriminate H].
  cbn [rbind] in H. injection H as _ <-. reflexivity.
Qed.

(** X4: when [calculate_transaction_fee] has returned, the first input
    resolves, so [extract_input_details] on the same transaction can only
    fail on the addresses of the referenced output: [KeyError] without the
    key, [IndexError] on an empty list, and otherwise it returns the first
    address and the value. *)
Theorem extract_input_details_after_fee (client : @Client num)
    (decoded_tx : @DecodedTx num) (vin : Vin) (other_vins : list Vin)
    (fee : @pyval num) :
  tx_vin decoded_tx = vin :: other_vins ->
  calculate_transaction_fee client decoded_tx = Ok fee ->
  exists o,
    resolves client vin o /\
    extract_input_details client decoded_tx
    = match spk_addresses (vout_scriptPubKey o) with
      | None => Raise (KeyError "addresses")
      | Some [] => Raise IndexError
      | Some (a :: _) => Ok (a, vout_value o)
      end.
Proof.
  intros Hvin H. unfold calculate_transaction_fee in H.
  unfold extract_input_details, resolves.
  rewrite Hvin in *. rewrite py_getitem_0_cons.
  cbn [rbind for_each] in *.
  destruct (getrawtransaction client (vin_txid vin)) as [raw |];
    [| discriminate H].
  cbn [rbind] in *.
  destruct (decoderawtransaction client raw) as [prev |] eqn:Hdec;
    [| discriminate H].
  cbn [rbind] in *.
  destruct (py_getitem (tx_vout prev) (vin_vout vin)) as [o |] eqn:Hout;
    [| discriminate H].
  cbn [rbind] in *.
  exists o. split.
  - exists raw, prev. repeat split; assumption.
  - destruct (spk_addresses (vout_scriptPubKey o)) as [[| a l] |];
      cbn [rbind py_getkey]; [reflexivity | | reflexivity].
    rewrite py_getitem_0_cons. reflexivity.
Qed.

Lemma py_add_right_commutative :
  (forall a x y : num, num_add (num_add a x) y = num_add (num_add a y) x) ->
  forall (acc : @pyval num) (x y : num),
    py_add (py_add acc (PNum x)) (PNum y)
    = py_add (py_add acc (PNum y)) (PNum x).
Proof.
  intros Hrc [i | a] x y; cbn [py_add]; f_equal; apply Hrc.
Qed.

Lemma fold_py_add_permutation (outs outs' : list (@Vout num)) :
  (forall a x y : num, num_add (num_add a x) y = num_add (num_add a y) x) ->
  Permutation outs outs' ->
  forall acc : @pyval num,
    fold_left py_add (map (fun o => PNum (vout_value o)) outs) acc
    = fold_left py_add (map (fun o => PNum (vout_value o)) outs') acc.
Proof.
  intros Hrc. induction 1 as [| x l l' _ IH | x y l | l l' l'' _ IH1 _ IH2];
    intros acc; cbn [map fold_left].
  - reflexivity.
  - apply IH.
  - rewrite (py_add_right_commutative Hrc). reflexivity.
  - rewrite IH1. apply IH2.
Qed.

(** X14: when the addition of the node's numbers does not depend on the
    order in which two numbers are added to a third (exact arithmetic),
    and every input resolves, [calculate_transaction_fee] gives the same
    result on every reordering of the inputs and of the outputs. *)
Theorem calculate_transaction_fee_order_independent (client : @Client num)
    (decoded_tx decoded_tx' : @DecodedTx num)
    (prev_outputs : list (@Vout num)) :
  (forall a x y : num, num_add (num_add a x) y = num_add (num_add a y) x) ->
  Forall2 (resolves client) (tx_vin decoded_tx) prev_outputs ->
  Permutation (tx_vin decoded_tx) (tx_vin decoded_tx') ->
  Permutation (tx_vout decoded_tx) (tx_vout decoded_tx') ->
  calculate_transaction_fee client decoded_tx
  = calculate_transaction_fee client decoded_tx'.
Proof.
  intros Hrc Hres Hvin Hvout.
  destruct (Permutation_Forall2 Hvin Hres) as (prev_outputs' & Hperm & Hres').
  unfold calculate_transaction_fee.
  rewrite (fee_loop_resolved _ _ _ _ Hres), (fee_loop_resolved _ _ _ _ Hres').
  cbn [rbind]. unfold py_sum.
  rewrite (fold_py_add_permutation _ _ Hrc Hvout),
    (fold_py_add_permutation _ _ Hrc Hperm). reflexivity.
Qed.

End FeeProperties.

(** ** Further properties of the pipeline *)

Section RunProperties.

Context {num : Type} {PF : PyFloat num} {Node : Type} {RPC : @NodeRPC num Node}.
Variable int_is_integer : bool.
Variable script_dir : string.

(** X8: [write_output_file] overwrites: on a file that can be opened, the
    outcome (result, printed lines and new content) does not depend on
    what out.txt held before, or on whether it existed. *)
Theorem write_output_file_overwrites
    (txid input_address : string) (input_amount : @pyval num)
    (trader_address : string) (trader_amount : @pyval num)
    (change_address : string) (change_amount fee : @pyval num)
    (block_height : Z) (block_hash : string)
    (w : @World Node) (previous : option string) :
  out_writable w = true ->
  write_output_file int_is_integer script_dir
    txid input_address input_amount trader_address trader_amount
    change_address change_amount fee block_height block_hash
    (with_out_txt w previous)
  = write_output_file int_is_integer script_dir
      txid input_address input_amount trader_address trader_amount
      change_address change_amount fee block_height block_hash w.
Proof.
  intros Hw. unfold write_output_file, makedirs_exist_ok, bind, open_w, with_out_txt.
  cbn [out_writable node stdout out_txt]. rewrite Hw. reflexivity.
Qed.

Lemma write_output_file_ok_inv
    (txid input_address : string) (input_amount : @pyval num)
    (trader_address : string) (trader_amount : @pyval num)
    (change_address : string) (change_amount fee : @pyval num)
    (block_height : Z) (block_hash : string)
    (w w' : @World Node) (u : unit) :
  write_output_file int_is_integer script_dir
    txid input_address input_amount trader_address trader_amount
    change_address change_amount fee block_height block_hash w
  = (Ok u, w') ->
  out_writable w = true /\
  exists whole_input whole_trader,
    is_integer int_is_integer input_amount = Ok whole_input /\
    is_integer int_is_integer trader_amount = Ok whole_trader.
Proof.
  unfold write_output_file, makedirs_exist_ok, bind, open_w, lift.
  destruct (out_writable w); [| discriminate].
  destruct (is_integer int_is_integer input_amount) as [b1 |];
    [| discriminate].
  destruct (is_integer int_is_integer trader_amount) as [b2 |].
  - intros _. split; [reflexivity |]. exists b1, b2. now split.
  - destruct b1; discriminate.
Qed.

(** X10: a partial file.  On a file that it could open, when [is_integer]
    raises on the input amount [write_output_file] raises that exception
    and leaves the first two lines of the report in out.txt; when
    [is_integer] returns on the input amount and raises on the recipient
    amount, it raises that exception and leaves the first four lines. *)
Theorem write_output_file_partial
    (txid input_address : string) (input_amount : @pyval num)
    (trader_address : string) (trader_amount : @pyval num)
    (change_address : string) (change_amount fee : @pyval num)
    (block_height : Z) (block_hash : string)
    (w : @World Node) (e : exn) :
  out_writable w = true ->
  is_integer int_is_integer input_amount = Raise e \/
  (exists whole_input,
     is_integer int_is_integer input_amount = Ok whole_input) /\
  is_integer int_is_integer trader_amount = Raise e ->
  exists w',
    write_output_file int_is_integer script_dir
      txid input_address input_amount trader_address trader_amount
      change_address change_amount fee block_height block_hash w
    = (Raise e, w') /\
    node w' = node w /\
    stdout w' = stdout w /\
    out_txt w'
    = match is_integer int_is_integer input_amount with
      | Raise _ => Some (unlines [txid; input_address])
      | Ok whole_input =>
          Some (unlines
            [txid;
             input_address;
             if whole_input then str_int (py_int input_amount)
             else py_str input_amount;
             trader_address])
      end.
Proof.
  intros Hw [Hi | [[whole_input Hi] Ht]]; eexists.
  - rewrite (write_output_file_stops_at_input_amount int_is_integer script_dir
               _ _ _ _ _ _ _ _ _ _ w e Hw Hi), Hi.
    repeat split; reflexivity.
  - rewrite (write_output_file_stops_at_recipient_amount int_is_integer
               script_dir _ _ _ _ _ _ _ _ _ _ w whole_input e Hw Hi Ht), Hi.
    repeat split; reflexivity.
Qed.

(** X9: when out.txt cannot be opened for writing, a run leaves the file
    as it is and ends normally on a diagnostic, whether the derivation
    raised or the writer did. *)
Theorem main_unwritable_file (w : @World Node) :
  out_writable w = false ->
  exists e,
    main int_is_integer script_dir w
    = (Ok tt,
       {| node := node (snd (main_derive w));
          stdout := (stdout (snd (main_derive w)) ++ [diagnostic e])%list;
          out_txt := out_txt w;
          out_writable := false |}).
Proof.
  intros Hw.
  destruct (main_derive_keeps_file w) as [Hf Hwr].
  destruct (main_derive w) as [[r | e] w1] eqn:H; cbn [snd] in *.
  - rewrite (main_after_derive int_is_integer script_dir w w1 r H).
    unfold write_output_file, makedirs_exist_ok, bind, open_w. rewrite Hwr, Hw.
    eexists.
    unfold print. rewrite Hf, Hwr, Hw. reflexivity.
  - exists e. unfold main, main_try, bind. rewrite H.
    unfold print. rewrite Hf, Hwr, Hw. reflexivity.
Qed.

(** X11: a partial report.  When the derivation succeeds, out.txt can be
    opened and [is_integer] raises on the input amount (a client that
    delivers [decimal.Decimal]), the run ends normally on the diagnostic
    of that exception with only the txid and the input address in
    out.txt; when it returns on the input amount and raises on the
    recipient amount (the integer 0 where [int] lacks the method), the run
    ends likewise with the first four lines in out.txt. *)
Theorem main_partial_report (w w1 : @World Node) (r : @Fields num) (e : exn) :
  out_writable w = true ->
  main_derive w = (Ok r, w1) ->
  is_integer int_is_integer (f_input_amount r) = Raise e \/
  (exists whole_input,
     is_integer int_is_integer (f_input_amount r) = Ok whole_input) /\
  is_integer int_is_integer (f_trader_amount r) = Raise e ->
  main int_is_integer script_dir w
  = (Ok tt,
     {| node := node w1;
        stdout := (stdout w1 ++ [diagnostic e])%list;
        out_txt :=
          match is_integer int_is_integer (f_input_amount r) with
          | Raise _ => Some (unlines [f_txid r; f_input_address r])
          | Ok whole_input =>
              Some (unlines
                [f_txid r;
                 f_input_address r;
                 if whole_input then str_int (py_int (f_input_amount r))
                 else py_str (f_input_amount r);
                 f_trader_receive_address r])
          end;
        out_writable := true |}).
Proof.
  intros Hw H Hraise.
  destruct (main_derive_keeps_file w) as [_ Hwr]. rewrite H in Hwr.
  cbn [snd] in Hwr. rewrite Hw in Hwr.
  rewrite (main_after_derive int_is_integer script_dir w w1 r H).
  destruct Hraise as [Hi | [[whole_input Hi] Ht]].
  - rewrite (write_output_file_stops_at_input_amount int_is_integer script_dir
               _ _ _ _ _ _ _ _ _ _ w1 e Hwr Hi), Hi.
    reflexivity.
  - rewrite (write_output_file_stops_at_recipient_amount int_is_integer
               script_dir _ _ _ _ _ _ _ _ _ _ w1 whole_input e Hwr Hi Ht), Hi.
    reflexivity.
Qed.

(** X12: a complete run.  When the derivation succeeds, out.txt can be
    opened and [is_integer] is defined on the input amount and on the
    recipient amount, the run ends normally, its last printed line
    announces the file, and out.txt holds the ten derived values, one per
    line. *)
Theorem main_complete_report (w w1 : @World Node) (r : @Fields num)
    (whole_input whole_trader : bool) :
  out_writable w = true ->
  main_derive w = (Ok r, w1) ->
  is_integer int_is_integer (f_input_amount r) = Ok whole_input ->
  is_integer int_is_integer (f_trader_amount r) = Ok whole_trader ->
  main int_is_integer script_dir w
  = (Ok tt,
     {| node := node w1;
        stdout := (stdout w1 ++
          [("Output written to: "
            ++ path_join (path_join script_dir "..") "out.txt")%string])%list;
        out_txt := Some (unlines
          [f_txid r;
           f_input_address r;
           if whole_input then str_int (py_int (f_input_amount r))
           else py_str (f_input_amount r);
           f_trader_receive_address r;
           if whole_trader then str_int (py_int (f_trader_amount r))
           else py_str (f_trader_amount r);
           f_change_address r;
           py_str (f_change_amount r);
           py_str (f_fee r);
           str_int (f_block_height r);
           f_confirm_block_hash r]);
        out_writable := true |}).
Proof.
  intros Hw H Hi Ht.
  destruct (main_derive_keeps_file w) as [_ Hwr]. rewrite H in Hwr.
  cbn [snd] in Hwr. rewrite Hw in Hwr.
  rewrite (main_after_derive int_is_integer script_dir w w1 r H).
  rewrite (write_output_file_content int_is_integer script_dir
             _ _ _ _ _ _ _ _ _ _ w1 whole_input whole_trader Hwr Hi Ht).
  reflexivity.
Qed.

(** X13: no exception leaves [main], and the last line that a run prints
    is either a diagnostic or the announcement of the file; in the second
    case out.txt holds a complete report of ten lines. *)
Theorem main_always_returns (w : @World Node) :
  exists (w' : @World Node) (printed : list string) (line : string),
    main int_is_integer script_dir w = (Ok tt, w') /\
    stdout w' = (printed ++ [line])%list /\
    ((exists e, line = diagnostic e) \/
     line = ("Output written to: "
             ++ path_join (path_join script_dir "..") "out.txt")%string /\
     exists lines, List.length lines = 10%nat /\
                   out_txt w' = Some (unlines lines)).
Proof.
  destruct (main_derive w) as [[r | e] w1] eqn:H.
  - rewrite (main_after_derive int_is_integer script_dir w w1 r H).
    destruct (write_output_file _ _ _ _ _ _ _ _ _ _ _ _ w1)
      as [[u | e] w2] eqn:Hwrite.
    + destruct (write_output_file_ok_inv _ _ _ _ _ _ _ _ _ _ _ _ _ Hwrite)
        as (Hw & b1 & b2 & Hi & Ht).
      rewrite (write_output_file_content int_is_integer script_dir
                 _ _ _ _ _ _ _ _ _ _ _ _ _ Hw Hi Ht) in Hwrite.
      apply (f_equal snd) in Hwrite. cbn [snd] in Hwrite. subst w2.
      eexists. eexists. eexists. split; [reflexivity |].
      cbn [stdout out_txt]. split; [reflexivity |]. right.
      split; [reflexivity |]. eexists. split; [| reflexivity]. reflexivity.
    + eexists. exists (stdout w2), (diagnostic e).
      split; [reflexivity |]. split; [reflexivity |]. left. now exists e.
  - eexists. exists (stdout w1), (diagnostic e).
    unfold main, main_try, bind. rewrite H.
    split; [reflexivity |]. split; [reflexivity |]. left. now exists e.
Qed.

End RunProperties.

(** ** The further properties on concrete transactions *)

Lemma calculate_transaction_fee_resolved_witness :
  calculate_transaction_fee (client_of full_node) tx2
  = Ok (PNum (Sat (-50000000))).
Proof.
  refine (calculate_transaction_fee_resolved (client_of full_node) tx2
            [addressed (50 * coin) ["addrMiner"]] _).
  constructor; [| constructor].
  exists "raw:T1", tx1. repeat split.
Defined.

Lemma calculate_transaction_fee_first_failure_witness :
  calculate_transaction_fee (client_of full_node) tx_two_inputs
  = Raise no_such_tx.
Proof.
  apply (calculate_transaction_fee_first_failure (client_of full_node)
           tx_two_inputs [{| vin_txid := "T1"; vin_vout := 0 |}] []
           {| vin_txid := "T9"; vin_vout := 0 |}
           [addressed (50 * coin) ["addrMiner"]] no_such_tx).
  - reflexivity.
  - constructor; [| constructor]. exists "raw:T1", tx1. repeat split.
  - left. reflexivity.
Defined.

Lemma single_input_fee_matches_input_amount_witness :
  calculate_transaction_fee (client_of full_node) tx2
  = Ok (PNum (Sat (-50000000))).
Proof.
  exact (single_input_fee_matches_input_amount (client_of full_node) tx2
           {| vin_txid := "T1"; vin_vout := 0 |} "addrMiner" (Sat (50 * coin))
           eq_refl eq_refl).
Defined.

Lemma extract_input_details_after_fee_witness :
  exists o,
    resolves (client_of data_carrier_node)
      {| vin_txid := "T0"; vin_vout := 0 |} o /\
    extract_input_details (client_of data_carrier_node) tx3
    = match spk_addresses (vout_scriptPubKey o) with
      | None => Raise (KeyError "addresses")
      | Some [] => Raise IndexError
      | Some (a :: _) => Ok (a, vout_value o)
      end.
Proof.
  exact (extract_input_details_after_fee (client_of data_carrier_node) tx3
           {| vin_txid := "T0"; vin_vout := 0 |} []
           (PNum (Sat (-30 * coin))) eq_refl eq_refl).
Defined.

Lemma extract_output_details_classification_witness :
  extract_output_details
    (tx_of_outputs [addressed 1 ["B"]; addressed 20 ["X"; "A"];
                    addressed 2 ["C"; "D"]; unaddressed 0; addressed 30 ["A"]])
    "A"
  = Ok ("C", PNum (Sat 2), PNum (Sat 30)).
Proof.
  refine (extract_output_details_classification
            (tx_of_outputs [addressed 1 ["B"]; addressed 20 ["X"; "A"];
                            addressed 2 ["C"; "D"]; unaddressed 0;
                            addressed 30 ["A"]]) "A" _).
  intros u [<- | [<- | [<- | [<- | [<- | []]]]]]; discriminate.
Defined.

Lemma extract_output_details_order_independent_witness :
  extract_output_details tx2 "addrTrader"
  = extract_output_details tx2_swapped "addrTrader".
Proof.
  apply (extract_output_details_order_independent tx2 tx2_swapped "addrTrader").
  - apply perm_swap.
  - cbn. lia.
  - cbn. lia.
Defined.

Lemma calculate_transaction_fee_order_independent_witness :
  calculate_transaction_fee (client_of full_node) tx2
  = calculate_transaction_fee (client_of full_node) tx2_swapped.
Proof.
  apply (calculate_transaction_fee_order_independent (client_of full_node)
           tx2 tx2_swapped [addressed (50 * coin) ["addrMiner"]]).
  - intros [a] [x] [y]. cbn. f_equal. lia.
  - constructor; [| constructor]. exists "raw:T1", tx1. repeat split.
  - apply Permutation_refl.
  - apply perm_swap.
Defined.

Lemma write_output_file_overwrites_witness :
  write_output_file true "src"
    "T2" "addrMiner" (PNum (Sat (50 * coin)))
    "addrTrader" (PNum (Sat (20 * coin)))
    "addrChange" (PNum (Sat 2950000000)) (PNum (Sat (-50000000)))
    102 "blockhash"
    (with_out_txt (fresh_world full_node) (Some "the report of an earlier run"))
  = write_output_file true "src"
      "T2" "addrMiner" (PNum (Sat (50 * coin)))
      "addrTrader" (PNum (Sat (20 * coin)))
      "addrChange" (PNum (Sat 2950000000)) (PNum (Sat (-50000000)))
      102 "blockhash" (fresh_world full_node).
Proof.
  apply (write_output_file_overwrites true "src"). reflexivity.
Defined.

Lemma main_unwritable_file_witness :
  exists e,
    main true "src" (locked_world full_node)
    = (Ok tt,
       {| node := node (snd (main_derive (locked_world full_node)));
          stdout := (stdout (snd (main_derive (locked_world full_node)))
                     ++ [diagnostic e])%list;
          out_txt := Some "kept";
          out_writable := false |}).
Proof.
  apply (main_unwritable_file true "src" (locked_world full_node)).
  reflexivity.
Defined.

Lemma write_output_file_partial_witness :
  exists w',
    write_output_file true "src"
      "T2" "addrMiner" (PNum (Dec (50 * coin)))
      "addrTrader" (PNum (Dec (20 * coin)))
      "addrMiner2" (PNum (Dec 2999998590)) (PNum (Dec (-1410)))
      102 "blockhash" dec_world
    = (Raise (AttributeError
                "'decimal.Decimal' object has no attribute 'is_integer'"),
       w') /\
    node w' = dec_node /\
    stdout w' = [] /\
    out_txt w' = Some (unlines ["T2"; "addrMiner"]).
Proof.
  exact (write_output_file_partial true "src"
           "T2" "addrMiner" (PNum (Dec (50 * coin)))
           "addrTrader" (PNum (Dec (20 * coin)))
           "addrMiner2" (PNum (Dec 2999998590)) (PNum (Dec (-1410)))
           102 "blockhash" dec_world
           (AttributeError
              "'decimal.Decimal' object has no attribute 'is_integer'")
           eq_refl (or_introl eq_refl)).
Defined.

Lemma main_partial_report_witness :
  exists w1,
    main_derive dec_world = (Ok dec_fields, w1) /\
    main true "src" dec_world
    = (Ok tt,
       {| node := node w1;
          stdout := (stdout w1 ++
            [("Error occurred: "
              ++ "'decimal.Decimal' object has no attribute 'is_integer'")
             %string])%list;
          out_txt := Some (unlines ["T2"; "addrMiner"]);
          out_writable := true |}).
Proof.
  eexists. split.
  - vm_compute. reflexivity.
  - refine (main_partial_report true "src" dec_world _ dec_fields
              (AttributeError
                 "'decimal.Decimal' object has no attribute 'is_integer'")
              eq_refl _ (or_introl eq_refl)).
    vm_compute. reflexivity.
Defined.

Lemma main_complete_report_witness :
  exists w1,
    main_derive (fresh_world full_node) = (Ok full_fields, w1) /\
    main true "src" (fresh_world full_node)
    = (Ok tt,
       {| node := node w1;
          stdout := (stdout w1 ++ ["Output written to: src/../out.txt"])%list;
          out_txt := Some (unlines
            ["T2"; "addrMiner"; "50"; "addrTrader"; "20"; "addrChange";
             "29.5"; "-0.5"; "102"; "blockhash"]);
          out_writable := true |}).
Proof.
  eexists. split.
  - vm_compute. reflexivity.
  - refine (main_complete_report true "src" (fresh_world full_node) _
              full_fields true true eq_refl _ eq_refl eq_refl).
    vm_compute. reflexivity.
Defined.
